(** * The Toggl ingestion function ([function_app.py])

    A shallow embedding of [ingest_toggl_data]: the Python values it
    handles (decoded JSON), the builtins it calls on them, the row
    flattener, the pagination loop, and the two collaborators it talks to
    (the reporting API and the staging database), followed by the
    properties of the run. *)

From Stdlib Require Import ZArith String Ascii List Bool Lia.
From Stdlib Require Import Floats.SpecFloat.
From stdpp Require Import gmap strings list.

Set Warnings "-register-all".
Local Open Scope Z_scope.
Local Open Scope string_scope.

(** ** Python values *)

(** What [json.loads] (behind [req.get_json()] and [response.json()])
    returns: [None], [bool], [int], [float], [str], [list] and [dict] with
    string keys. *)
Inductive json : Type :=
  | JNull
  | JBool (b : bool)
  | JInt (z : Z)
  | JFloat (f : spec_float)
  | JStr (s : string)
  | JList (l : list json)
  | JObj (m : gmap string json).

(** The exceptions the function can meet.  [InvalidLiteral] is the
    [ValueError] of [int(s)]; [JSONDecodeError] is the one of
    [response.json()], [RequestException] a failure of [requests.post]
    itself, [HTTPError] the one of [raise_for_status], [pyodbc_Error] any
    failure of a driver call. *)
Inductive exn : Type :=
  | KeyError (key : json)
  | IndexError (what : string)
  | ValueError (msg : string)
  | InvalidLiteral (s : string)
  | AttributeError (type_name attr : string)
  | TypeError (type_name what : string)
  | HTTPError (status_code : Z)
  | RequestException (msg : string)
  | JSONDecodeError (msg : string)
  | pyodbc_Error (call : string).

(** [except KeyError] and [except ValueError]. *)
Definition is_KeyError (e : exn) : bool :=
  match e with KeyError _ => true | _ => false end.

Definition is_ValueError (e : exn) : bool :=
  match e with
  | ValueError _ | InvalidLiteral _ | JSONDecodeError _ => true
  | _ => false
  end.

(** The result of evaluating an expression or a block: a value, a raised
    exception, or [Pending]: the run is waiting for an answer of the
    reporting API that the scenario does not contain. *)
Inductive res (A : Type) : Type :=
  | Val (a : A)
  | Exn (e : exn)
  | Pending.
Arguments Val {A} a.
Arguments Exn {A} e.
Arguments Pending {A}.

Definition res_bind {A B : Type} (r : res A) (k : A -> res B) : res B :=
  match r with
  | Val a => k a
  | Exn e => Exn e
  | Pending => Pending
  end.

Declare Scope res_scope.
Delimit Scope res_scope with res.
Notation "x <- r ;; k" := (res_bind r (fun x => k))
  (at level 100, r at next level, right associativity) : res_scope.

(** Truth value of a Python object ([if x:], [not x]). *)
Definition float_is_zero (f : spec_float) : bool :=
  match f with S754_zero _ => true | _ => false end.

Definition truthy (v : json) : bool :=
  match v with
  | JNull => false
  | JBool b => b
  | JInt z => negb (z =? 0)%Z
  | JFloat f => negb (float_is_zero f)
  | JStr s => negb (String.eqb s "")
  | JList l => match l with [] => false | _ :: _ => true end
  | JObj m => match map_to_list m with [] => false | _ :: _ => true end
  end.

Definition type_name (v : json) : string :=
  match v with
  | JNull => "NoneType"
  | JBool _ => "bool"
  | JInt _ => "int"
  | JFloat _ => "float"
  | JStr _ => "str"
  | JList _ => "list"
  | JObj _ => "dict"
  end.

(** [v.get(key)]: only a [dict] has the method; an absent key gives
    [None]. *)
Definition py_get (v : json) (key : string) : res json :=
  match v with
  | JObj m => Val (default JNull (m !! key))
  | _ => Exn (AttributeError (type_name v) "get")
  end.

(** [v[key]] for a string key. *)
Definition py_getitem (v : json) (key : string) : res json :=
  match v with
  | JObj m =>
      match m !! key with
      | Some x => Val x
      | None => Exn (KeyError (JStr key))
      end
  | JStr _ => Exn (TypeError "str" "indices must be integers")
  | JList _ => Exn (TypeError "list" "indices must be integers")
  | _ => Exn (TypeError (type_name v) "is not subscriptable")
  end.

(** [v[0]]. *)
Definition py_getitem0 (v : json) : res json :=
  match v with
  | JList (x :: _) => Val x
  | JList [] => Exn (IndexError "list index out of range")
  | JStr (String c _) => Val (JStr (String c ""))
  | JStr "" => Exn (IndexError "string index out of range")
  | JObj _ => Exn (KeyError (JInt 0))
  | _ => Exn (TypeError (type_name v) "is not subscriptable")
  end.

(** The elements [for entry in v] goes through: those of a list, the keys
    of a dict, the characters of a string. *)
Definition py_iter (v : json) : res (list json) :=
  match v with
  | JList l => Val l
  | JObj m => Val (map (fun kv => JStr (fst kv)) (map_to_list m))
  | JStr s => Val (map (fun c => JStr (String c "")) (list_ascii_of_string s))
  | _ => Exn (TypeError (type_name v) "is not iterable")
  end.

(** [int(s)] on a string, base 10: surrounding white space, one optional
    sign, decimal digits with single underscores between them, and
    CPython's bound on the number of digits.  The string is a header
    value, which [requests] decodes as Latin-1: one character here is one
    code point below 256.  Of these [int] strips tab to carriage return
    (9 to 13), the space (32) and the two Unicode spaces U+0085 and U+00A0;
    the separators 28 to 31 are not stripped, and there is no decimal digit
    beyond ["0"] to ["9"]. *)
Definition is_space (c : ascii) : bool :=
  let n := nat_of_ascii c in
  ((9 <=? n)%nat && (n <=? 13)%nat) || (n =? 32)%nat
  || (n =? 133)%nat || (n =? 160)%nat.

Definition is_digit (c : ascii) : bool :=
  let n := nat_of_ascii c in (48 <=? n)%nat && (n <=? 57)%nat.

Definition digit_value (c : ascii) : Z := Z.of_nat (nat_of_ascii c) - 48.

Fixpoint lstrip (s : list ascii) : list ascii :=
  match s with
  | c :: s' => if is_space c then lstrip s' else s
  | [] => []
  end.

Definition strip (s : list ascii) : list ascii :=
  rev (lstrip (rev (lstrip s))).

Fixpoint digits (s : list ascii) (after_digit : bool) (acc : Z) : option Z :=
  match s with
  | [] => if after_digit then Some acc else None
  | c :: s' =>
      if is_digit c then digits s' true (10 * acc + digit_value c)
      else if Ascii.eqb c "_" && after_digit then digits s' false acc
      else None
  end.

Definition max_str_digits : nat := 4300.

Definition parse_int (s : string) : option Z :=
  let body := strip (list_ascii_of_string s) in
  let '(negative, body) :=
    match body with
    | c :: body' =>
        if Ascii.eqb c "-" then (true, body')
        else if Ascii.eqb c "+" then (false, body')
        else (false, body)
    | [] => (false, [])
    end in
  if (max_str_digits <? List.length (List.filter is_digit body))%nat then None
  else option_map (fun n => if negative then - n else n) (digits body false 0).

Definition py_int (s : string) : res Z :=
  match parse_int s with
  | Some n => Val n
  | None => Exn (InvalidLiteral s)
  end.

(** ** Row flattener (step 5 of the loop) *)

(** The columns named by the [INSERT] statement, in its order; a row is
    the tuple of parameters bound to them, in the same order. *)
Definition staging_columns : list string :=
  [ "toggl_time_entry_id"; "user_id"; "project_id"; "task_id"; "billable";
    "description"; "start_time"; "stop_time"; "duration_seconds";
    "updated_at" ].

(** The body of [for entry in data]: [None] is [continue], [Some row] is
    the tuple appended to [rows_to_insert]. *)
Definition flatten_entry (entry : json) : res (option (list json)) :=
  (time_entries <- py_get entry "time_entries" ;;
   if negb (truthy time_entries) then Val None
   else
     time_entries <- py_getitem entry "time_entries" ;;
     details <- py_getitem0 time_entries ;;
     billable <- py_get entry "billable" ;;
     let is_billable := if truthy billable then JInt 1 else JInt 0 in
     c0 <- py_get details "id" ;;
     c1 <- py_get entry "user_id" ;;
     c2 <- py_get entry "project_id" ;;
     c3 <- py_get entry "task_id" ;;
     c4 <- py_get entry "billable" ;;
     c5 <- py_get entry "description" ;;
     c6 <- py_get details "start" ;;
     c7 <- py_get details "stop" ;;
     c8 <- py_get details "seconds" ;;
     c9 <- py_get details "at" ;;
     let row := [c0; c1; c2; c3; c4; c5; c6; c7; c8; c9] in
     Val (Some row))%res.

(** [rows_to_insert = []; for entry in data: ...]. *)
Fixpoint for_entry_in (data : list json) (rows_to_insert : list (list json))
  : res (list (list json)) :=
  match data with
  | [] => Val rows_to_insert
  | entry :: data' =>
      match flatten_entry entry with
      | Val None => for_entry_in data' rows_to_insert
      | Val (Some row) => for_entry_in data' (rows_to_insert ++ [row])
      | Exn e => Exn e
      | Pending => Pending
      end
  end.

Definition flatten_page (data : json) : res (list (list json)) :=
  (entries <- py_iter data ;; for_entry_in entries [])%res.

(** ** The collaborators: reporting API, staging database, log *)

(** An f-string, with the values it interpolates kept as values. *)
Inductive frag : Type :=
  | Lit (s : string)
  | FmtExn (e : exn)
  | FmtInt (n : Z).

Record HttpResponse : Type := mkHttpResponse {
  body : list frag;
  status_code : Z
}.

(** The inbound request: what [req.get_json()] gives, the decoded body or
    the message of the [ValueError] it raises. *)
Record HttpRequest : Type := mkHttpRequest {
  req_json : string + json
}.

Definition get_json (req : HttpRequest) : res json :=
  match req_json req with
  | inl msg => Exn (ValueError msg)
  | inr v => Val v
  end.

(** One answer of the reporting API to a [POST]: status, body (decoded, or
    the message of the decoding error) and headers, the header names in
    lower case as [requests] compares them. *)
Record Response : Type := mkResponse {
  status : Z;
  content : string + json;
  headers : gmap string string
}.

Inductive reply : Type :=
  | Unreachable (msg : string)
  | Answer (response : Response).

Definition ascii_lower (c : ascii) : ascii :=
  let n := nat_of_ascii c in
  if (65 <=? n)%nat && (n <=? 90)%nat then ascii_of_nat (n + 32) else c.

Fixpoint lower (s : string) : string :=
  match s with
  | EmptyString => EmptyString
  | String c s' => String (ascii_lower c) (lower s')
  end.

Definition headers_get (response : Response) (name : string) : option string :=
  headers response !! lower name.

Definition raise_for_status (response : Response) : res unit :=
  if (400 <=? status response)%Z && (status response <? 600)%Z
  then Exn (HTTPError (status response))
  else Val tt.

Definition response_json (response : Response) : res json :=
  match content response with
  | inl msg => Exn (JSONDecodeError msg)
  | inr v => Val v
  end.

(** Calls to the database driver, and what a run leaves behind. *)
Inductive db_call : Type :=
  | Connect (conn_string : string)
  | Cursor
  | Execute (sql : string)
  | ExecuteMany (sql : string) (params : list (list json))
  | Commit
  | Close.

Inductive event : Type :=
  | Log (level : string) (msg : list frag)
  | Post (url : string) (payload : gmap string json) (auth : string * string)
  | Db (call : db_call) (ok : bool).

(** The world a run acts on: the committed rows of
    [[dbo].[StageTogglTimeEntries]], the open session's own view of the
    table ([None]: no session, so [conn] is [None]), which driver calls fail
    (by their rank among the calls of the run), and the calls made so far. *)
Record world : Type := mkWorld {
  table : list (list json);
  session : option (list (list json));
  faults : nat -> bool;
  calls : nat;
  trace : list event
}.

Definition M (A : Type) : Type := world -> res A * world.

Definition ret {A : Type} (a : A) : M A := fun w => (Val a, w).
Definition raise {A : Type} (e : exn) : M A := fun w => (Exn e, w).
Definition pending {A : Type} : M A := fun w => (Pending, w).
Definition lift {A : Type} (r : res A) : M A := fun w => (r, w).

Definition bind {A B : Type} (c : M A) (k : A -> M B) : M B :=
  fun w =>
    match c w with
    | (Val a, w') => k a w'
    | (Exn e, w') => (Exn e, w')
    | (Pending, w') => (Pending, w')
    end.

Declare Scope M_scope.
Delimit Scope M_scope with M.
Notation "x <- c ;; k" := (bind c (fun x => k))
  (at level 100, c at next level, right associativity) : M_scope.

Definition emit (e : event) (w : world) : world :=
  mkWorld (table w) (session w) (faults w) (calls w) (trace w ++ [e]).

Definition set_session (s : option (list (list json))) (w : world) : world :=
  mkWorld (table w) s (faults w) (calls w) (trace w).

Definition set_table (t : list (list json)) (w : world) : world :=
  mkWorld t (session w) (faults w) (calls w) (trace w).

Definition count_call (w : world) : world :=
  mkWorld (table w) (session w) (faults w) (S (calls w)) (trace w).

(** [try: body except <catches> as e: handler e] and
    [try: body finally: cleanup]. *)
Definition try_except {A : Type} (body : M A) (catches : exn -> bool)
    (handler : exn -> M A) : M A :=
  fun w =>
    match body w with
    | (Exn e, w') => if catches e then handler e w' else (Exn e, w')
    | r => r
    end.

Definition try_finally {A : Type} (body : M A) (cleanup : M unit) : M A :=
  fun w =>
    match body w with
    | (Pending, w') => (Pending, w')
    | (r, w') =>
        match cleanup w' with
        | (Val _, w'') => (r, w'')
        | (Exn e, w'') => (Exn e, w'')
        | (Pending, w'') => (Pending, w'')
        end
    end.

Definition logging (level : string) (msg : list frag) : M unit :=
  fun w => (Val tt, emit (Log level msg) w).

(** A driver call: it fails when the world says so, leaving the database
    as it was, and has its effect otherwise. *)
Definition driver (call : db_call) (name : string) (effect : world -> world)
  : M unit :=
  fun w =>
    if faults w (calls w)
    then (Exn (pyodbc_Error name), emit (Db call false) (count_call w))
    else (Val tt, effect (emit (Db call true) (count_call w))).

Definition sql_truncate : string :=
  "TRUNCATE TABLE [dbo].[StageTogglTimeEntries]".

Definition sql_insert : string :=
  "
                    INSERT INTO [dbo].[StageTogglTimeEntries] (
                        toggl_time_entry_id, user_id, project_id, task_id, billable,
                        description, start_time, stop_time, duration_seconds, updated_at
                    ) VALUES (?, ?, ?, ?, ?, ?, ?, ?, ?, ?)
                ".

(** [pyodbc.connect]: the session starts from the committed table. *)
Definition pyodbc_connect (conn_string : string) : M unit :=
  driver (Connect conn_string) "connect"
         (fun w => set_session (Some (table w)) w).

Definition conn_cursor : M unit :=
  driver Cursor "cursor" (fun w => w).

(** [cursor.execute]: of the statements of this program only the
    [TRUNCATE] is run through it; it empties the session's view. *)
Definition cursor_execute (sql : string) : M unit :=
  driver (Execute sql) "execute"
         (fun w =>
            if String.eqb sql sql_truncate
            then set_session (option_map (fun _ => []) (session w)) w
            else w).

Definition cursor_executemany (sql : string) (rows : list (list json)) : M unit :=
  driver (ExecuteMany sql rows) "executemany"
         (fun w => set_session (option_map (fun t => (t ++ rows)%list) (session w)) w).

(** [conn.commit()]: the session's view becomes the committed table. *)
Definition conn_commit : M unit :=
  driver Commit "commit"
         (fun w => match session w with
                   | Some t => set_table t w
                   | None => w
                   end).

(** [conn.close()]: uncommitted work is dropped with the session.  Closing
    an open connection does not raise, so no fault is looked up. *)
Definition conn_close : M unit :=
  fun w => (Val tt, set_session None (emit (Db Close true) w)).

(** [requests.post(URL, json=payload, auth=AUTH)], answered by [r]. *)
Definition requests_post (url : string) (payload : gmap string json)
    (auth : string * string) (r : reply) : M Response :=
  fun w =>
    let w' := emit (Post url payload auth) w in
    match r with
    | Unreachable msg => (Exn (RequestException msg), w')
    | Answer response => (Val response, w')
    end.

(** ** [ingest_toggl_data] *)

(** Step 1, the body of the first [try]. *)
Record config : Type := mkConfig {
  AUTH : string * string;
  URL : string;
  SQL_CONN_STRING : string
}.

Definition environ_getitem (environ : gmap string string) (name : string)
  : res string :=
  match environ !! name with
  | Some v => Val v
  | None => Exn (KeyError (JStr name))
  end.

Definition configuration (environ : gmap string string) : res config :=
  (TOGGL_API_TOKEN <- environ_getitem environ "TOGGL_API_TOKEN" ;;
   WORKSPACE_ID <- environ_getitem environ "TOGGL_WORKSPACE_ID" ;;
   SQL_CONN_STRING <- environ_getitem environ "SqlConnectionString" ;;
   Val (mkConfig
          (TOGGL_API_TOKEN, "api_token")
          ("https://api.track.toggl.com/reports/api/v3/workspace/"
             ++ WORKSPACE_ID ++ "/search/time_entries")
          SQL_CONN_STRING))%res.

(** Step 2, the body of the second [try]. *)
Definition request_dates (req : HttpRequest) : res (json * json) :=
  (req_body <- get_json req ;;
   start_date <- py_get req_body "start_date" ;;
   end_date <- py_get req_body "end_date" ;;
   if negb (truthy start_date) || negb (truthy end_date)
   then Exn (ValueError "Missing start_date or end_date")
   else Val (start_date, end_date))%res.

Definition make_payload (start_date end_date : json) (first_row_number : Z)
  : gmap string json :=
  <["start_date" := start_date]>
    (<["end_date" := end_date]>
       (<["page_size" := JInt 50]>
          (<["first_row_number" := JInt first_row_number]> ∅))).

(** Step 4, "Call API": the payload, the [POST], [raise_for_status] and
    the decoded body. *)
Definition call_api (cfg : config) (start_date end_date : json)
    (first_row_number : Z) (r : reply) : M (Response * json) :=
  (let payload := make_payload start_date end_date first_row_number in
   response <- requests_post (URL cfg) payload (AUTH cfg) r ;;
   _ <- lift (raise_for_status response) ;;
   data <- lift (response_json response) ;;
   ret (response, data))%M.

(** Step 6, "Bulk Insert into Staging": the value is the new
    [total_loaded]. *)
Definition bulk_insert (rows_to_insert : list (list json)) (total_loaded : Z)
  : M Z :=
  match rows_to_insert with
  | _ :: _ =>
      (_ <- cursor_executemany sql_insert rows_to_insert ;;
       _ <- conn_commit ;;
       ret (total_loaded + Z.of_nat (List.length rows_to_insert)))%M
  | [] => ret total_loaded
  end.

(** Steps 4 to 7, [while True: ...].  Each turn consumes the next answer
    of the reporting API; the value is [total_loaded] at the [break]. *)
Fixpoint pagination_loop (cfg : config) (start_date end_date : json)
    (upstream : list reply) (first_row_number total_loaded : Z)
    {struct upstream} : M Z :=
  match upstream with
  | [] => pending
  | r :: upstream' =>
      (fetched <- call_api cfg start_date end_date first_row_number r ;;
       let '(response, data) := fetched in
       if negb (truthy data) then ret total_loaded
       else
         rows_to_insert <- lift (flatten_page data) ;;
         total_loaded <- bulk_insert rows_to_insert total_loaded ;;
         match headers_get response "X-Next-Row-Number" with
         | Some next_row =>
             if negb (String.eqb next_row "")
             then
               first_row_number <- lift (py_int next_row) ;;
               pagination_loop cfg start_date end_date upstream'
                               first_row_number total_loaded
             else ret total_loaded
         | None => ret total_loaded
         end)%M
  end.

(** Step 3 onwards, the body of the last [try]. *)
Definition load_staging (cfg : config) (start_date end_date : json)
    (upstream : list reply) : M HttpResponse :=
  (conn <- pyodbc_connect (SQL_CONN_STRING cfg) ;;
   cursor <- conn_cursor ;;
   _ <- cursor_execute sql_truncate ;;
   _ <- conn_commit ;;
   total_loaded <- pagination_loop cfg start_date end_date upstream 1 0 ;;
   ret (mkHttpResponse
          [Lit "Success. Loaded "; FmtInt total_loaded;
           Lit " records into Staging."]
          200))%M.

(** [except Exception as e] of the last [try]. *)
Definition on_exception (e : exn) : M HttpResponse :=
  (_ <- logging "error" [Lit "Error processing batch: "; FmtExn e] ;;
   ret (mkHttpResponse [Lit "Error: "; FmtExn e] 500))%M.

(** [finally: if conn: conn.close()]. *)
Definition close_if_open : M unit :=
  fun w =>
    match session w with
    | Some _ => conn_close w
    | None => (Val tt, w)
    end.

(** The function: the environment of the process, the inbound request and
    the answers the reporting API will give, in the order of the calls.
    [Val r] is [return r], [Exn e] an exception leaving the function. *)
Definition ingest_toggl_data (environ : gmap string string) (req : HttpRequest)
    (upstream : list reply) : M HttpResponse :=
  (_ <- logging "info" [Lit "Starting Toggl Data Ingestion."] ;;
   match configuration environ with
   | Exn e =>
       if is_KeyError e
       then ret (mkHttpResponse [Lit "Missing config: "; FmtExn e] 500)
       else raise e
   | Pending => pending
   | Val cfg =>
       match request_dates req with
       | Exn e =>
           if is_ValueError e
           then ret (mkHttpResponse [Lit "Invalid Body: "; FmtExn e] 400)
           else raise e
       | Pending => pending
       | Val (start_date, end_date) =>
           try_finally
             (try_except (load_staging cfg start_date end_date upstream)
                         (fun _ => true) on_exception)
             close_if_open
       end
   end)%M.

(** A world before the run: some committed rows, no session, no call yet. *)
Definition initial (rows : list (list json)) (faults : nat -> bool) : world :=
  mkWorld rows None faults 0 [].

(** ** Reading a trace *)

Definition is_io (e : event) : bool :=
  match e with
  | Post _ _ _ | Db _ _ => true
  | Log _ _ => false
  end.

Definition is_post (e : event) : bool :=
  match e with Post _ _ _ => true | _ => false end.

Definition is_close (e : event) : bool :=
  match e with Db Close _ => true | _ => false end.

Definition is_truncate (e : event) : bool :=
  match e with Db (Execute sql) _ => String.eqb sql sql_truncate | _ => false end.

Definition is_insert (e : event) : bool :=
  match e with Db (ExecuteMany _ _) _ => true | _ => false end.

Definition is_execute (e : event) : bool :=
  match e with Db (Execute _) _ => true | _ => false end.

(** What the loop itself may emit: a fetch, a batch insert of at least one
    row, a commit. *)
Definition is_loop_event (e : event) : bool :=
  match e with
  | Post _ _ _ => true
  | Db (ExecuteMany _ (_ :: _)) _ => true
  | Db Commit _ => true
  | _ => false
  end.

(** ** Reading a page *)

(** The rows a page flattens to, when its status is no error, its body
    decodes and every entry flattens; a page of zero entries gives none. *)
Definition page_rows (response : Response) : option (list (list json)) :=
  match raise_for_status response, response_json response with
  | Val _, Val data =>
      if truthy data
      then match flatten_page data with
           | Val rows => Some rows
           | _ => None
           end
      else Some []
  | _, _ => None
  end.

Definition rows_of (response : Response) : list (list json) :=
  default [] (page_rows response).

(** [if not data]. *)
Definition zero_entries (response : Response) : bool :=
  match response_json response with
  | Val data => negb (truthy data)
  | _ => false
  end.

(** The cursor a page hands over: a non-empty header that [int] reads. *)
Definition next_row_number (response : Response) : option Z :=
  match headers_get response "X-Next-Row-Number" with
  | Some next_row =>
      if negb (String.eqb next_row "") then parse_int next_row else None
  | None => None
  end.

(** A page after which the loop goes on, and one at which it stops. *)
Definition more_pages (response : Response) : bool :=
  bool_decide (is_Some (page_rows response))
  && negb (zero_entries response)
  && bool_decide (is_Some (next_row_number response)).

Definition last_page (response : Response) : bool :=
  bool_decide (is_Some (page_rows response))
  && (zero_entries response
      || bool_decide (headers_get response "X-Next-Row-Number" = None)).

(** The pages whose batch is not empty: each costs the driver two calls. *)
Definition batches (pages : list Response) : nat :=
  List.length (List.filter (fun p => negb (bool_decide (rows_of p = []))) pages).

Definition total_rows (pages : list Response) : Z :=
  Z.of_nat (List.length (concat (map rows_of pages))).

(** What a turn of the loop learns from a reply, apart from sending the
    request. *)
Definition read_reply (r : reply) : res (Response * json) :=
  match r with
  | Unreachable msg => Exn (RequestException msg)
  | Answer response =>
      (_ <- raise_for_status response ;;
       data <- response_json response ;;
       Val (response, data))%res
  end.

(** [w'] is [w] after some turns of the loop: the events added are those
    of the loop, the session is still there, the faults are the same. *)
Definition extends (w w' : world) (tr : list event) : Prop :=
  trace w' = (trace w ++ tr)%list
  /\ Forall (fun e => is_loop_event e = true) tr
  /\ (is_Some (session w) -> is_Some (session w'))
  /\ faults w' = faults w.

(** The responses and the log line of the last [try]. *)
Definition success_response (total_loaded : Z) : HttpResponse :=
  mkHttpResponse
    [Lit "Success. Loaded "; FmtInt total_loaded; Lit " records into Staging."]
    200.

Definition error_response (e : exn) : HttpResponse :=
  mkHttpResponse [Lit "Error: "; FmtExn e] 500.

Definition error_log (e : exn) : event :=
  Log "error" [Lit "Error processing batch: "; FmtExn e].

Definition starting_log : event :=
  Log "info" [Lit "Starting Toggl Data Ingestion."].

(** The events of a run up to the first turn of the loop, when nothing
    failed. *)
Definition setup_events (conn_string : string) : list event :=
  [ starting_log; Db (Connect conn_string) true; Db Cursor true;
    Db (Execute sql_truncate) true; Db Commit true ].

(** The world when the loop starts: table cleared and committed, session
    open, four driver calls made. *)
Definition ready (conn_string : string) (faults : nat -> bool) : world :=
  mkWorld [] (Some []) faults 4 (setup_events conn_string).

Definition closed (w : world) : world :=
  set_session None (emit (Db Close true) w).

(** How the run ends once the loop has ended, with an open session. *)
Definition finish (loop : res Z * world) : res HttpResponse * world :=
  match loop with
  | (Val total_loaded, w) => (Val (success_response total_loaded), closed w)
  | (Exn e, w) => (Val (error_response e), closed (emit (error_log e) w))
  | (Pending, w) => (Pending, w)
  end.

(** The traces a run can leave, with its outcome. *)
Inductive run_shape : res HttpResponse -> list event -> Prop :=
  | shape_early (r : res HttpResponse) :
      r <> Pending -> run_shape r [starting_log]
  | shape_no_session (cs : string) (e : exn) :
      run_shape (Val (error_response e))
                [starting_log; Db (Connect cs) false; error_log e]
  | shape_no_cursor (cs : string) (e : exn) :
      run_shape (Val (error_response e))
                [starting_log; Db (Connect cs) true; Db Cursor false;
                 error_log e; Db Close true]
  | shape_no_truncate (cs : string) (e : exn) :
      run_shape (Val (error_response e))
                [starting_log; Db (Connect cs) true; Db Cursor true;
                 Db (Execute sql_truncate) false; error_log e; Db Close true]
  | shape_no_commit (cs : string) (e : exn) :
      run_shape (Val (error_response e))
                [starting_log; Db (Connect cs) true; Db Cursor true;
                 Db (Execute sql_truncate) true; Db Commit false;
                 error_log e; Db Close true]
  | shape_loaded (cs : string) (tr : list event) (total_loaded : Z) :
      Forall (fun e => is_loop_event e = true) tr ->
      run_shape (Val (success_response total_loaded))
                (setup_events cs ++ tr ++ [Db Close true])
  | shape_failed (cs : string) (tr : list event) (e : exn) :
      Forall (fun e => is_loop_event e = true) tr ->
      run_shape (Val (error_response e))
                (setup_events cs ++ tr ++ [error_log e; Db Close true])
  | shape_pending (cs : string) (tr : list event) :
      Forall (fun e => is_loop_event e = true) tr ->
      run_shape Pending (setup_events cs ++ tr).

(** The world after a batch was inserted and committed without a fault,
    and after a whole turn of the loop on such a page. *)
Definition loaded (rows : list (list json)) (w : world) : world :=
  match rows with
  | [] => w
  | _ :: _ =>
      mkWorld (table w ++ rows)%list (Some (table w ++ rows)%list) (faults w)
              (S (S (calls w)))
              (trace w ++ [Db (ExecuteMany sql_insert rows) true; Db Commit true])
  end.

Definition after_page (cfg : config) (sd ed : json) (first_row_number : Z)
    (page : Response) (w : world) : world :=
  loaded (rows_of page)
         (emit (Post (URL cfg) (make_payload sd ed first_row_number) (AUTH cfg)) w).

Fixpoint after_pages (cfg : config) (sd ed : json) (pages : list Response)
    (first_row_number : Z) (w : world) : Z * world :=
  match pages with
  | [] => (first_row_number, w)
  | page :: pages' =>
      after_pages cfg sd ed pages'
                  (default first_row_number (next_row_number page))
                  (after_page cfg sd ed first_row_number page w)
  end.

(** The exception a reply leads to when it is the fetch that fails
    (unreachable API, error status, body that does not decode) or the
    storage (the insert or its commit, the driver calls of rank [k] and
    [k + 1]). *)
Definition failure_at (faults : nat -> bool) (k : nat) (r : reply) : option exn :=
  match read_reply r with
  | Exn e => Some e
  | Val (response, data) =>
      if truthy data
      then match flatten_page data with
           | Val (_ :: _) =>
               if faults k then Some (pyodbc_Error "executemany")
               else if faults (S k) then Some (pyodbc_Error "commit")
               else None
           | _ => None
           end
      else None
  | Pending => None
  end.

(** A page with entries whose cursor header is there, not empty, and not
    an integer. *)
Definition bad_cursor (page : Response) : option string :=
  match headers_get page "X-Next-Row-Number" with
  | Some next_row =>
      if negb (String.eqb next_row "")
      then match parse_int next_row with
           | Some _ => None
           | None => Some next_row
           end
      else None
  | None => None
  end.

(** A page at which the loop leaves by [if not data]: its status is no
    error and its body decodes to a falsy value (zero entries). *)
Definition ends_on_empty (page : Response) : bool :=
  match read_reply (Answer page) with
  | Val (_, data) => negb (truthy data)
  | _ => false
  end.

(** Step 7 after a turn on [page], [upstream] being what is left. *)
Definition handle_pagination (cfg : config) (sd ed : json)
    (upstream : list reply) (page : Response) (total_loaded : Z) : M Z :=
  match headers_get page "X-Next-Row-Number" with
  | Some next_row =>
      if negb (String.eqb next_row "")
      then
        (first_row_number <- lift (py_int next_row) ;;
         pagination_loop cfg sd ed upstream first_row_number total_loaded)%M
      else ret total_loaded
  | None => ret total_loaded
  end.

Definition no_fault_between (faults : nat -> bool) (from : nat) (count : nat)
  : Prop :=
  forall i : nat, (from <= i < from + count)%nat -> faults i = false.

(** [w'] is [w] some faultless turns later: [rows] were committed after
    the rows of [w], in [batches] inserts, after [fetches] requests, and no
    other statement was executed. *)
Definition advanced (w w' : world) (rows : list (list json))
    (fetches batches : nat) : Prop :=
  table w' = (table w ++ rows)%list
  /\ session w' = Some (table w')
  /\ faults w' = faults w
  /\ calls w' = (calls w + 2 * batches)%nat
  /\ List.length (List.filter is_post (trace w'))
     = (List.length (List.filter is_post (trace w)) + fetches)%nat
  /\ List.filter is_execute (trace w') = List.filter is_execute (trace w).

(** ** Inputs used as examples *)

Definition obj (fields : list (string * json)) : json :=
  JObj (list_to_map fields).

Definition full_environ : gmap string string :=
  list_to_map [ ("TOGGL_API_TOKEN", "secret"); ("TOGGL_WORKSPACE_ID", "42");
                ("SqlConnectionString", "Driver=ODBC;Server=staging") ].

Definition week_request : HttpRequest :=
  mkHttpRequest
    (inr (obj [("start_date", JStr "2024-01-01"); ("end_date", JStr "2024-01-07")])).

Definition empty_request : HttpRequest := mkHttpRequest (inr (obj [])).

Definition detail_fields (n : Z) : gmap string json :=
  list_to_map [ ("id", JInt n); ("start", JStr "2024-01-02T09:00:00");
                ("seconds", JInt 600) ].

Definition entry_fields (n : Z) (billable : list (string * json))
  : gmap string json :=
  list_to_map ([ ("user_id", JInt 9); ("project_id", JInt 3);
                 ("description", JStr "review");
                 ("time_entries", JList [JObj (detail_fields n)]) ]
               ++ billable)%list.

Definition entry_of (n : Z) (billable : list (string * json)) : json :=
  JObj (entry_fields n billable).

Definition entry_without_details : gmap string json :=
  list_to_map [ ("user_id", JInt 9); ("time_entries", JList []) ].

Definition page_of (entries : list json) (next_row : option string) : Response :=
  mkResponse 200 (inr (JList entries))
             (match next_row with
              | Some s => {[ "x-next-row-number" := s ]}
              | None => ∅
              end).

Definition no_faults : nat -> bool := fun _ => false.

Definition fault_at (k : nat) : nat -> bool := fun i => Nat.eqb i k.

Definition field (m : gmap string json) (key : string) : json :=
  default JNull (m !! key).

Definition missing_setting (environ : gmap string string) : Prop :=
  environ !! "TOGGL_API_TOKEN" = None
  \/ environ !! "TOGGL_WORKSPACE_ID" = None
  \/ environ !! "SqlConnectionString" = None.

(** What the second [try] does with a body that is not JSON, and with a
    JSON object in which a date is absent or empty. *)
Definition dates_missing (req : HttpRequest) : Prop :=
  match req_json req with
  | inl _ => True
  | inr (JObj m) =>
      truthy (field m "start_date") = false \/ truthy (field m "end_date") = false
  | inr _ => False
  end.

(** A run of two pages, three entries, and its inputs. *)
Definition two_pages : list reply :=
  [ Answer (page_of [entry_of 1 []; entry_of 2 []] (Some "3"));
    Answer (page_of [entry_of 3 []] None) ].

(** The events a run leaves, from a world where the table holds [old]. *)
Definition run_trace (environ : gmap string string) (req : HttpRequest)
    (upstream : list reply) (old : list (list json)) (faults : nat -> bool)
  : list event :=
  trace (snd (ingest_toggl_data environ req upstream (initial old faults))).

(** ** [http_trigger_test] *)

(** The body of its responses: an f-string whose interpolated value is
    kept as the Python value it is. *)
Inductive part : Type :=
  | Text (s : string)
  | Value (v : json).

(** [func.HttpResponse(body)]: the status is 200 when none is given. *)
Record TextResponse : Type := mkTextResponse {
  text : list part;
  code : Z
}.

Definition hello (name : json) : TextResponse :=
  mkTextResponse
    [Text "Hello, "; Value name;
     Text ". This HTTP triggered function executed successfully."]
    200.

Definition no_name_response : TextResponse :=
  mkTextResponse
    [Text "This HTTP triggered function executed successfully. Pass a name in the query string or in the request body for a personalized response."]
    200.

Definition trigger_log : event :=
  Log "info" [Lit "Python HTTP trigger function processed a request."].

(** The function: [params] are the query parameters of the request
    ([req.params]), [req] carries its body. *)
Definition http_trigger_test (params : gmap string string) (req : HttpRequest)
  : M TextResponse :=
  (_ <- logging "info" [Lit "Python HTTP trigger function processed a request."] ;;
   let name :=
     match params !! "name" with
     | Some s => JStr s
     | None => JNull
     end in
   name <-
     (if negb (truthy name)
      then
        match get_json req with
        | Exn e => if is_ValueError e then ret name else raise e
        | Val req_body => lift (py_get req_body "name")
        | Pending => pending
        end
      else ret name) ;;
   if truthy name
   then ret (mkTextResponse
               [Text "Hello, "; Value name;
                Text ". This HTTP triggered function executed successfully."]
               200)
   else ret (mkTextResponse
               [Text "This HTTP triggered function executed successfully. Pass a name in the query string or in the request body for a personalized response."]
               200))%M.

(** The query string gives no name: the parameter is absent or empty. *)
Definition no_query_name (params : gmap string string) : Prop :=
  params !! "name" = None \/ params !! "name" = Some "".

Definition is_object (v : json) : bool :=
  match v with JObj _ => true | _ => false end.

(** ** More readings of a run *)

(** The request the loop sends for the row number [n]. *)
Definition request_for (cfg : config) (sd ed : json) (n : Z) : event :=
  Post (URL cfg) (make_payload sd ed n) (AUTH cfg).

(** The row numbers asked for, page after page, starting from
    [first_row_number]: each page hands over the next one. *)
Fixpoint cursors (first_row_number : Z) (pages : list Response) : list Z :=
  match pages with
  | [] => []
  | page :: pages' =>
      first_row_number
        :: cursors (default first_row_number (next_row_number page)) pages'
  end.

(** The rows of the batch inserts that went through. *)
Definition batch_rows (e : event) : list (list json) :=
  match e with
  | Db (ExecuteMany _ rows) true => rows
  | _ => []
  end.

Definition inserted_rows (tr : list event) : list (list json) :=
  concat (map batch_rows tr).

(** A reply whose entries cannot all be flattened. *)
Definition flatten_failure (r : reply) : option exn :=
  match read_reply r with
  | Val (response, data) =>
      if truthy data
      then match flatten_page data with
           | Exn e => Some e
           | _ => None
           end
      else None
  | _ => None
  end.

(** A page with entries whose cursor header is there and empty. *)
Definition empty_cursor (page : Response) : bool :=
  bool_decide (is_Some (page_rows page))
  && negb (zero_entries page)
  && bool_decide (headers_get page "X-Next-Row-Number" = Some "").

(** The first of the three settings that the environment lacks. *)
Definition first_missing (environ : gmap string string) : option string :=
  match environ !! "TOGGL_API_TOKEN" with
  | None => Some "TOGGL_API_TOKEN"
  | Some _ =>
      match environ !! "TOGGL_WORKSPACE_ID" with
      | None => Some "TOGGL_WORKSPACE_ID"
      | Some _ =>
          match environ !! "SqlConnectionString" with
          | None => Some "SqlConnectionString"
          | Some _ => None
          end
      end
  end.

(** Further inputs used as examples. *)
Definition named_request : HttpRequest :=
  mkHttpRequest (inr (obj [("name", JStr "Ada")])).

Definition list_request : HttpRequest :=
  mkHttpRequest (inr (JList [JInt 1])).

(** The first of the four driver calls before the loop that fails, by the
    name of the call. *)
Definition first_setup_fault (faults : nat -> bool) : option string :=
  if faults 0%nat then Some "connect"
  else if faults 1%nat then Some "cursor"
  else if faults 2%nat then Some "execute"
  else if faults 3%nat then Some "commit"
  else None.

(** An event that, when it is a request, is one of the loop's. *)
Definition sent_by_loop (cfg : config) (sd ed : json) (e : event) : Prop :=
  is_post e = true -> exists n : Z, e = request_for cfg sd ed n.

(** * Properties *)

(** ** [int] on a header value *)

(** The white space [int] strips and the one it does not: a unit separator
    before the digit makes the value no integer, a no-break space or a next
    line around it does not; signs and underscores as in Python. *)
Lemma parse_int_examples :
  parse_int (String (ascii_of_nat 31) "7") = None
  /\ parse_int (String (ascii_of_nat 160) "7") = Some 7
  /\ parse_int ("7" ++ String (ascii_of_nat 133) "") = Some 7
  /\ parse_int " +1_000 " = Some 1000
  /\ parse_int "-51" = Some (-51)
  /\ parse_int "5 1" = None
  /\ parse_int "1__0" = None
  /\ parse_int "" = None.
Proof. repeat split; vm_compute; reflexivity. Qed.

(** ** The flattener *)

Lemma py_get_obj (m : gmap string json) (key : string) :
  py_get (JObj m) key = Val (field m key).
Proof. reflexivity. Qed.

Lemma flatten_entry_skip (m : gmap string json) :
  truthy (field m "time_entries") = false ->
  flatten_entry (JObj m) = Val None.
Proof.
  intros H. unfold flatten_entry. rewrite py_get_obj. simpl. now rewrite H.
Qed.

Lemma flatten_entry_row (m d : gmap string json) (rest : list json) :
  m !! "time_entries" = Some (JList (JObj d :: rest)) ->
  flatten_entry (JObj m)
  = Val (Some [ field d "id"; field m "user_id"; field m "project_id";
                field m "task_id"; field m "billable"; field m "description";
                field d "start"; field d "stop"; field d "seconds";
                field d "at" ]).
Proof.
  intros H. unfold flatten_entry. rewrite !py_get_obj.
  unfold field at 1. rewrite H. simpl. rewrite H. reflexivity.
Qed.

(** C1 (the code departs from the claim): the flag [is_billable] is
    computed and then not used; the tuple carries [entry.get('billable')]
    as read.  An entry without the key yields [None] in the billable
    column, not the integer 0, and an entry whose flag is the string
    ["yes"] yields that string, not the integer 1. *)
Theorem C1_billable_not_coerced :
  flatten_entry (entry_of 7 [])
    = Val (Some [ JInt 7; JInt 9; JInt 3; JNull; JNull; JStr "review";
                  JStr "2024-01-02T09:00:00"; JNull; JInt 600; JNull ])
  /\ truthy (JNull) = false
  /\ flatten_entry (entry_of 7 [("billable", JStr "yes")])
    = Val (Some [ JInt 7; JInt 9; JInt 3; JNull; JStr "yes"; JStr "review";
                  JStr "2024-01-02T09:00:00"; JNull; JInt 600; JNull ])
  /\ truthy (JStr "yes") = true.
Proof. repeat split; vm_compute; reflexivity. Qed.

(** C4: an entry (a JSON object) whose [time_entries] is absent or the
    empty list is skipped without an error; one whose [time_entries] is a
    list starting with a detail record gives exactly one row, the columns
    in the order of the INSERT statement, the five detail columns read from
    that first record, and every absent key read as [None]. *)
Theorem C4_flatten_entry (m : gmap string json) :
  (m !! "time_entries" = None \/ m !! "time_entries" = Some (JList []) ->
   flatten_entry (JObj m) = Val None
   /\ flatten_page (JList [JObj m]) = Val [])
  /\ (forall (d : gmap string json) (rest : list json),
        m !! "time_entries" = Some (JList (JObj d :: rest)) ->
        exists row,
          flatten_entry (JObj m) = Val (Some row)
          /\ flatten_page (JList [JObj m]) = Val [row]
          /\ combine staging_columns row
             = [ ("toggl_time_entry_id", field d "id");
                 ("user_id", field m "user_id");
                 ("project_id", field m "project_id");
                 ("task_id", field m "task_id");
                 ("billable", field m "billable");
                 ("description", field m "description");
                 ("start_time", field d "start");
                 ("stop_time", field d "stop");
                 ("duration_seconds", field d "seconds");
                 ("updated_at", field d "at") ]).
Proof.
  split.
  - intros H.
    assert (Hs : flatten_entry (JObj m) = Val None).
    { apply flatten_entry_skip. unfold field. now destruct H as [-> | ->]. }
    split; [exact Hs |]. unfold flatten_page. simpl. now rewrite Hs.
  - intros d rest H. eexists. split; [apply (flatten_entry_row m d rest H) |].
    split; [| reflexivity].
    unfold flatten_page. simpl. now rewrite (flatten_entry_row m d rest H).
Qed.

Lemma C4_flatten_entry_witness :
  (flatten_entry (JObj entry_without_details) = Val None
   /\ flatten_page (JList [JObj entry_without_details]) = Val [])
  /\ exists row,
       flatten_entry (entry_of 7 []) = Val (Some row)
       /\ flatten_page (JList [entry_of 7 []]) = Val [row]
       /\ combine staging_columns row
          = [ ("toggl_time_entry_id", field (detail_fields 7) "id");
              ("user_id", field (entry_fields 7 []) "user_id");
              ("project_id", field (entry_fields 7 []) "project_id");
              ("task_id", field (entry_fields 7 []) "task_id");
              ("billable", field (entry_fields 7 []) "billable");
              ("description", field (entry_fields 7 []) "description");
              ("start_time", field (detail_fields 7) "start");
              ("stop_time", field (detail_fields 7) "stop");
              ("duration_seconds", field (detail_fields 7) "seconds");
              ("updated_at", field (detail_fields 7) "at") ].
Proof.
  split.
  - apply (proj1 (C4_flatten_entry entry_without_details)).
    right. vm_compute. reflexivity.
  - apply (proj2 (C4_flatten_entry (entry_fields 7 [])) (detail_fields 7) []).
    vm_compute. reflexivity.
Defined.

(** ** Configuration and request validation *)

Lemma configuration_missing (environ : gmap string string) :
  missing_setting environ ->
  exists name,
    configuration environ = Exn (KeyError (JStr name))
    /\ environ !! name = None
    /\ In name ["TOGGL_API_TOKEN"; "TOGGL_WORKSPACE_ID"; "SqlConnectionString"].
Proof.
  intros H. unfold configuration, environ_getitem.
  destruct (environ !! "TOGGL_API_TOKEN") as [tok |] eqn:E1; simpl.
  2:{ exists "TOGGL_API_TOKEN". split; [reflexivity |]. split; [exact E1 |]. simpl; tauto. }
  destruct (environ !! "TOGGL_WORKSPACE_ID") as [ws |] eqn:E2; simpl.
  2:{ exists "TOGGL_WORKSPACE_ID". split; [reflexivity |]. split; [exact E2 |]. simpl; tauto. }
  destruct (environ !! "SqlConnectionString") as [sql |] eqn:E3; simpl.
  2:{ exists "SqlConnectionString". split; [reflexivity |]. split; [exact E3 |]. simpl; tauto. }
  destruct H as [H | [H | H]]; congruence.
Qed.

Lemma configuration_present (environ : gmap string string) :
  ~ missing_setting environ -> exists cfg, configuration environ = Val cfg.
Proof.
  intros H. unfold configuration, environ_getitem, missing_setting in *.
  destruct (environ !! "TOGGL_API_TOKEN"); [| tauto].
  destruct (environ !! "TOGGL_WORKSPACE_ID"); [| tauto].
  destruct (environ !! "SqlConnectionString"); [| tauto].
  simpl. eauto.
Qed.

Lemma ingest_missing_config (environ : gmap string string) (req : HttpRequest)
    (upstream : list reply) (w : world) (name : string) :
  configuration environ = Exn (KeyError (JStr name)) ->
  ingest_toggl_data environ req upstream w
  = (Val (mkHttpResponse [Lit "Missing config: "; FmtExn (KeyError (JStr name))] 500),
     emit starting_log w).
Proof.
  intros H. unfold ingest_toggl_data, bind, logging. rewrite H. reflexivity.
Qed.

(** C3: when one of the three settings is absent from the environment, the
    function returns the 500 "Missing config" response naming a missing
    setting, and the world is the one it started from plus the opening log
    line: no request was sent, no driver call made, the table untouched. *)
Theorem C3_missing_config (environ : gmap string string) (req : HttpRequest)
    (upstream : list reply) (old : list (list json)) (faults : nat -> bool) :
  missing_setting environ ->
  exists name w',
    environ !! name = None
    /\ ingest_toggl_data environ req upstream (initial old faults)
       = (Val (mkHttpResponse
                 [Lit "Missing config: "; FmtExn (KeyError (JStr name))] 500),
          w')
    /\ List.filter is_io (trace w') = []
    /\ calls w' = 0%nat
    /\ table w' = old.
Proof.
  intros H. destruct (configuration_missing environ H) as (name & Hc & Hn & _).
  exists name, (emit starting_log (initial old faults)).
  split; [exact Hn |]. split; [now apply ingest_missing_config |].
  repeat split.
Qed.

Lemma C3_missing_config_witness :
  missing_setting (delete "TOGGL_WORKSPACE_ID" full_environ)
  /\ exists name w',
       delete "TOGGL_WORKSPACE_ID" full_environ !! name = None
       /\ ingest_toggl_data (delete "TOGGL_WORKSPACE_ID" full_environ)
                            week_request [] (initial [] no_faults)
          = (Val (mkHttpResponse
                    [Lit "Missing config: "; FmtExn (KeyError (JStr name))] 500),
             w')
       /\ List.filter is_io (trace w') = []
       /\ calls w' = 0%nat
       /\ table w' = [].
Proof.
  assert (H : missing_setting (delete "TOGGL_WORKSPACE_ID" full_environ)).
  { right. left. vm_compute. reflexivity. }
  split; [exact H |].
  exact (C3_missing_config _ week_request [] [] no_faults H).
Defined.

(** C9: the configuration is read before the body.  With a setting
    missing, a request whose dates are missing too (the second [try] would
    raise on it) gets the 500 "Missing config" response and not the 400
    one, and the outcome is the same for any other request: the body plays
    no part in it. *)
Theorem C9_config_before_body (environ : gmap string string) (req : HttpRequest)
    (upstream : list reply) (old : list (list json)) (faults : nat -> bool)
    (e : exn) :
  missing_setting environ ->
  request_dates req = Exn e ->
  exists name,
    fst (ingest_toggl_data environ req upstream (initial old faults))
    = Val (mkHttpResponse
             [Lit "Missing config: "; FmtExn (KeyError (JStr name))] 500)
    /\ fst (ingest_toggl_data environ req upstream (initial old faults))
       <> Val (mkHttpResponse [Lit "Invalid Body: "; FmtExn e] 400)
    /\ forall req' : HttpRequest,
         ingest_toggl_data environ req' upstream (initial old faults)
         = ingest_toggl_data environ req upstream (initial old faults).
Proof.
  intros H _. destruct (configuration_missing environ H) as (name & Hc & _).
  exists name. rewrite (ingest_missing_config _ req _ _ _ Hc). simpl.
  split; [reflexivity |]. split; [discriminate |].
  intros req'. now rewrite (ingest_missing_config _ req' _ _ _ Hc).
Qed.

Lemma C9_config_before_body_witness :
  missing_setting ∅
  /\ request_dates empty_request
     = Exn (ValueError "Missing start_date or end_date")
  /\ exists name,
       fst (ingest_toggl_data ∅ empty_request [] (initial [] no_faults))
       = Val (mkHttpResponse
                [Lit "Missing config: "; FmtExn (KeyError (JStr name))] 500)
       /\ fst (ingest_toggl_data ∅ empty_request [] (initial [] no_faults))
          <> Val (mkHttpResponse
                    [Lit "Invalid Body: ";
                     FmtExn (ValueError "Missing start_date or end_date")] 400)
       /\ forall req' : HttpRequest,
            ingest_toggl_data ∅ req' [] (initial [] no_faults)
            = ingest_toggl_data ∅ empty_request [] (initial [] no_faults).
Proof.
  assert (H1 : missing_setting ∅) by (left; reflexivity).
  assert (H2 : request_dates empty_request
               = Exn (ValueError "Missing start_date or end_date"))
    by (vm_compute; reflexivity).
  split; [exact H1 |]. split; [exact H2 |].
  exact (C9_config_before_body ∅ empty_request [] [] no_faults _ H1 H2).
Defined.

Lemma request_dates_missing (req : HttpRequest) :
  dates_missing req ->
  exists e, request_dates req = Exn e /\ is_ValueError e = true.
Proof.
  unfold dates_missing, request_dates, get_json.
  destruct (req_json req) as [msg | v]; simpl.
  - intros _. eexists. split; reflexivity.
  - destruct v; try contradiction. simpl. fold (field m "start_date").
    fold (field m "end_date"). intros [-> | ->]; simpl.
    + eexists. split; reflexivity.
    + rewrite orb_true_r. eexists. split; reflexivity.
Qed.

(** C2 as the code has it: the claim fails when a setting is missing too
    (the response is then the 500 of C3).  With the three settings
    present, a request whose body is not JSON, or is a JSON object where
    [start_date] or [end_date] is absent (or null, or empty), gets the 400
    "Invalid Body" response; no request is sent and no driver call made. *)
Theorem C2_missing_dates (environ : gmap string string) (req : HttpRequest)
    (upstream : list reply) (old : list (list json)) (faults : nat -> bool) :
  ~ missing_setting environ ->
  dates_missing req ->
  exists e w',
    ingest_toggl_data environ req upstream (initial old faults)
    = (Val (mkHttpResponse [Lit "Invalid Body: "; FmtExn e] 400), w')
    /\ is_ValueError e = true
    /\ List.filter is_io (trace w') = []
    /\ calls w' = 0%nat
    /\ table w' = old.
Proof.
  intros Hc Hd. destruct (configuration_present environ Hc) as [cfg Hcfg].
  destruct (request_dates_missing req Hd) as (e & He & Hv).
  exists e, (emit starting_log (initial old faults)).
  unfold ingest_toggl_data, bind, logging. rewrite Hcfg, He, Hv.
  repeat split.
Qed.

Lemma full_environ_complete : ~ missing_setting full_environ.
Proof. intros [H | [H | H]]; vm_compute in H; discriminate. Qed.

Lemma C2_missing_dates_witness :
  dates_missing empty_request
  /\ exists e w',
       ingest_toggl_data full_environ empty_request [] (initial [] no_faults)
       = (Val (mkHttpResponse [Lit "Invalid Body: "; FmtExn e] 400), w')
       /\ is_ValueError e = true
       /\ List.filter is_io (trace w') = []
       /\ calls w' = 0%nat
       /\ table w' = [].
Proof.
  assert (H : dates_missing empty_request) by (left; reflexivity).
  split; [exact H |].
  exact (C2_missing_dates full_environ empty_request [] [] no_faults
                          full_environ_complete H).
Defined.

(** C2, the claim as written, fails: the body lacks both dates, a setting
    is missing, and the response is a 500. *)
Lemma C2_counterexample :
  dates_missing empty_request
  /\ fst (ingest_toggl_data ∅ empty_request [] (initial [] no_faults))
     = Val (mkHttpResponse
              [Lit "Missing config: "; FmtExn (KeyError (JStr "TOGGL_API_TOKEN"))]
              500)
  /\ ~ exists r,
         fst (ingest_toggl_data ∅ empty_request [] (initial [] no_faults)) = Val r
         /\ status_code r = 400.
Proof.
  split; [left; reflexivity |]. split; [reflexivity |].
  intros (r & Hr & Hs). vm_compute in Hr. injection Hr as <-. discriminate.
Qed.

(** ** The loop, whatever the collaborators do *)

Lemma extends_refl (w : world) : extends w w [].
Proof. unfold extends. rewrite app_nil_r. auto. Qed.

Lemma extends_trans (w1 w2 w3 : world) (t1 t2 : list event) :
  extends w1 w2 t1 -> extends w2 w3 t2 -> extends w1 w3 (t1 ++ t2).
Proof.
  intros (T1 & F1 & S1 & Q1) (T2 & F2 & S2 & Q2). unfold extends.
  rewrite T2, T1, <- app_assoc. repeat split; auto.
  - apply Forall_app; auto.
  - congruence.
Qed.

Lemma driver_cases (call : db_call) (name : string) (effect : world -> world)
    (w : world) :
  (faults w (calls w) = true
   /\ driver call name effect w
      = (Exn (pyodbc_Error name), emit (Db call false) (count_call w)))
  \/ (faults w (calls w) = false
      /\ driver call name effect w
         = (Val tt, effect (emit (Db call true) (count_call w)))).
Proof. unfold driver. destruct (faults w (calls w)); auto. Qed.

Lemma call_api_eq (cfg : config) (sd ed : json) (frn : Z) (r : reply) (w : world) :
  call_api cfg sd ed frn r w
  = (read_reply r, emit (Post (URL cfg) (make_payload sd ed frn) (AUTH cfg)) w).
Proof.
  unfold call_api, bind, requests_post, lift, ret, read_reply.
  destruct r as [msg | resp]; [reflexivity |].
  destruct (raise_for_status resp); try reflexivity.
  simpl. destruct (response_json resp); reflexivity.
Qed.

Lemma emit_post_extends (w : world) url payload auth :
  extends w (emit (Post url payload auth) w) [Post url payload auth].
Proof. unfold extends. simpl. repeat split; auto. Qed.

Lemma bulk_insert_extends (rows : list (list json)) (total : Z) (w : world) :
  exists tr, extends w (snd (bulk_insert rows total w)) tr.
Proof.
  destruct rows as [| row rows]; simpl.
  { exists []. apply extends_refl. }
  unfold bind, cursor_executemany, conn_commit, ret.
  destruct (driver_cases (ExecuteMany sql_insert (row :: rows)) "executemany"
              (fun w => set_session
                          (option_map (fun t => (t ++ row :: rows)%list) (session w)) w) w)
    as [[_ ->] | [_ ->]].
  { exists [Db (ExecuteMany sql_insert (row :: rows)) false].
    unfold extends. simpl. repeat split; auto. }
  match goal with |- context [driver Commit "commit" ?f ?w0] =>
    destruct (driver_cases Commit "commit" f w0) as [[_ ->] | [_ ->]] end.
  - exists [Db (ExecuteMany sql_insert (row :: rows)) true; Db Commit false].
    unfold extends.
    destruct (session w) as [v |] eqn:Es; simpl; rewrite ?Es; simpl;
      rewrite <- List.app_assoc; repeat split; eauto;
      intros [? ?]; discriminate.
  - exists [Db (ExecuteMany sql_insert (row :: rows)) true; Db Commit true].
    unfold extends.
    destruct (session w) as [v |] eqn:Es; simpl; rewrite ?Es; simpl;
      rewrite <- List.app_assoc; repeat split; eauto;
      intros [? ?]; discriminate.
Qed.

Lemma pagination_loop_extends (cfg : config) (sd ed : json) (upstream : list reply) :
  forall (frn total : Z) (w : world),
    exists tr, extends w (snd (pagination_loop cfg sd ed upstream frn total w)) tr.
Proof.
  induction upstream as [| rp up IH]; intros frn total w; simpl.
  { exists []. apply extends_refl. }
  unfold bind at 1. rewrite call_api_eq.
  pose proof (emit_post_extends w (URL cfg) (make_payload sd ed frn) (AUTH cfg)) as HP.
  set (w1 := emit _ w) in *.
  destruct (read_reply rp) as [[resp data] | e |]; simpl; eauto.
  destruct (truthy data); simpl; eauto.
  unfold bind at 1, lift at 1.
  destruct (flatten_page data) as [rows | e |]; simpl; eauto.
  unfold bind at 1.
  destruct (bulk_insert_extends rows total w1) as [t2 H2].
  destruct (bulk_insert rows total w1) as [[total' | e |] w2]; simpl in *;
    try (eexists; eapply extends_trans; eassumption).
  destruct (headers_get resp "X-Next-Row-Number") as [s |];
    try (eexists; eapply extends_trans; eassumption).
  destruct (negb (s =? "")%string);
    try (eexists; eapply extends_trans; eassumption).
  unfold bind, lift. destruct (py_int s) as [n | e |]; simpl;
    try (eexists; eapply extends_trans; eassumption).
  destruct (IH n total' w2) as [t3 H3].
  eexists. eapply extends_trans; [eapply extends_trans |]; eassumption.
Qed.

(** ** The shape of a run *)

Lemma ingest_configured (environ : gmap string string) (req : HttpRequest)
    (upstream : list reply) (w : world) (cfg : config) (sd ed : json) :
  configuration environ = Val cfg ->
  request_dates req = Val (sd, ed) ->
  ingest_toggl_data environ req upstream w
  = try_finally
      (try_except (load_staging cfg sd ed upstream) (fun _ => true) on_exception)
      close_if_open (emit starting_log w).
Proof.
  intros Hc Hd. unfold ingest_toggl_data, bind at 1, logging.
  rewrite Hc, Hd. reflexivity.
Qed.

Lemma guarded_finish (loop : M Z) (w : world) :
  is_Some (session (snd (loop w))) ->
  try_finally
    (try_except (total_loaded <- loop ;; ret (success_response total_loaded))%M
                (fun _ => true) on_exception)
    close_if_open w
  = finish (loop w).
Proof.
  intros [v Hs]. unfold try_finally, try_except, bind, ret, on_exception,
    close_if_open, logging, finish, conn_close.
  destruct (loop w) as [[total | e |] w']; simpl in *; rewrite ?Hs; reflexivity.
Qed.

Lemma load_staging_ready (cfg : config) (sd ed : json) (upstream : list reply)
    (old : list (list json)) (faults : nat -> bool) :
  faults 0%nat = false -> faults 1%nat = false ->
  faults 2%nat = false -> faults 3%nat = false ->
  load_staging cfg sd ed upstream (emit starting_log (initial old faults))
  = (total_loaded <- pagination_loop cfg sd ed upstream 1 0 ;;
     ret (success_response total_loaded))%M
      (ready (SQL_CONN_STRING cfg) faults).
Proof.
  intros H0 H1 H2 H3. unfold load_staging.
  unfold bind at 1, pyodbc_connect, driver. simpl. rewrite H0.
  unfold bind at 1, conn_cursor, driver. simpl. rewrite H1.
  unfold bind at 1, cursor_execute, driver. simpl. rewrite H2.
  unfold bind at 1, conn_commit, driver. simpl. rewrite H3.
  reflexivity.
Qed.

Lemma ingest_ready (environ : gmap string string) (req : HttpRequest)
    (upstream : list reply) (old : list (list json)) (faults : nat -> bool)
    (cfg : config) (sd ed : json) :
  configuration environ = Val cfg ->
  request_dates req = Val (sd, ed) ->
  faults 0%nat = false -> faults 1%nat = false ->
  faults 2%nat = false -> faults 3%nat = false ->
  ingest_toggl_data environ req upstream (initial old faults)
  = finish (pagination_loop cfg sd ed upstream 1 0
                            (ready (SQL_CONN_STRING cfg) faults)).
Proof.
  intros Hc Hd H0 H1 H2 H3.
  rewrite (ingest_configured _ _ _ _ _ _ _ Hc Hd).
  rewrite <- guarded_finish.
  - unfold try_finally, try_except.
    rewrite (load_staging_ready _ _ _ _ _ _ H0 H1 H2 H3). reflexivity.
  - destruct (pagination_loop_extends cfg sd ed upstream 1 0
                (ready (SQL_CONN_STRING cfg) faults)) as (tr & _ & _ & Hs & _).
    apply Hs. simpl. eauto.
Qed.

Lemma configuration_not_pending (environ : gmap string string) :
  configuration environ <> Pending.
Proof.
  unfold configuration, environ_getitem.
  repeat (destruct (_ !! _); simpl; try discriminate).
Qed.

Lemma request_dates_not_pending (req : HttpRequest) :
  request_dates req <> Pending.
Proof.
  unfold request_dates, get_json, py_get.
  destruct (req_json req) as [? | []]; simpl; try discriminate.
  destruct (_ || _); discriminate.
Qed.

Lemma ingest_setup_failed (environ : gmap string string) (req : HttpRequest)
    (upstream : list reply) (old : list (list json)) (faults : nat -> bool)
    (cfg : config) (sd ed : json) :
  configuration environ = Val cfg ->
  request_dates req = Val (sd, ed) ->
  faults 0%nat = true \/ faults 1%nat = true
  \/ faults 2%nat = true \/ faults 3%nat = true ->
  exists (e : exn) (w' : world) (done : list event),
    ingest_toggl_data environ req upstream (initial old faults)
    = (Val (error_response e), w')
    /\ session w' = None
    /\ table w' = old
    /\ trace w' = (starting_log :: done)%list
    /\ In done
         [ [Db (Connect (SQL_CONN_STRING cfg)) false; error_log e];
           [Db (Connect (SQL_CONN_STRING cfg)) true; Db Cursor false;
            error_log e; Db Close true];
           [Db (Connect (SQL_CONN_STRING cfg)) true; Db Cursor true;
            Db (Execute sql_truncate) false; error_log e; Db Close true];
           [Db (Connect (SQL_CONN_STRING cfg)) true; Db Cursor true;
            Db (Execute sql_truncate) true; Db Commit false;
            error_log e; Db Close true] ].
Proof.
  intros Ec Ed Hf.
  rewrite (ingest_configured _ _ _ _ _ _ _ Ec Ed).
  unfold try_finally, try_except, load_staging.
  unfold bind at 1, pyodbc_connect, driver. simpl.
  destruct (faults 0%nat) eqn:H0.
  { do 3 eexists. split; [reflexivity |]. simpl. repeat split; auto. }
  unfold bind at 1, conn_cursor, driver. simpl.
  destruct (faults 1%nat) eqn:H1.
  { do 3 eexists. split; [reflexivity |]. simpl. repeat split; auto. }
  unfold bind at 1, cursor_execute, driver. simpl.
  destruct (faults 2%nat) eqn:H2.
  { do 3 eexists. split; [reflexivity |]. simpl. repeat split; eauto 6. }
  unfold bind at 1, conn_commit, driver. simpl.
  destruct (faults 3%nat) eqn:H3.
  { do 3 eexists. split; [reflexivity |]. simpl. repeat split; eauto 6. }
  destruct Hf as [Hf | [Hf | [Hf | Hf]]]; discriminate.
Qed.

Lemma run_has_shape (environ : gmap string string) (req : HttpRequest)
    (upstream : list reply) (old : list (list json)) (faults : nat -> bool)
    (r : res HttpResponse) (w' : world) :
  ingest_toggl_data environ req upstream (initial old faults) = (r, w') ->
  run_shape r (trace w') /\ (r <> Pending -> session w' = None).
Proof.
  intros H.
  destruct (configuration environ) as [cfg | e |] eqn:Ec.
  2:{ unfold ingest_toggl_data, bind at 1, logging in H. rewrite Ec in H.
      destruct (is_KeyError e); inversion H; subst; simpl; split; auto;
        apply shape_early; discriminate. }
  2:{ now apply configuration_not_pending in Ec. }
  destruct (request_dates req) as [[sd ed] | e |] eqn:Ed.
  2:{ unfold ingest_toggl_data, bind at 1, logging in H. rewrite Ec, Ed in H.
      destruct (is_ValueError e); inversion H; subst; simpl; split; auto;
        apply shape_early; discriminate. }
  2:{ now apply request_dates_not_pending in Ed. }
  destruct (faults 0%nat) eqn:H0; [| destruct (faults 1%nat) eqn:H1;
    [| destruct (faults 2%nat) eqn:H2; [| destruct (faults 3%nat) eqn:H3]]].
  1-4: destruct (ingest_setup_failed environ req upstream old faults cfg sd ed
                   Ec Ed ltac:(tauto))
         as (e & w1 & done & Hr & Hs & _ & Ht & Hd);
       rewrite Hr in H; inversion H; subst; split; auto; rewrite Ht;
       simpl in Hd; destruct Hd as [<- | [<- | [<- | [<- | []]]]];
       constructor.
  rewrite (ingest_ready _ _ _ _ _ _ _ _ Ec Ed H0 H1 H2 H3) in H.
  destruct (pagination_loop_extends cfg sd ed upstream 1 0
              (ready (SQL_CONN_STRING cfg) faults)) as (tr & Ht & Hf & _ & _).
  destruct (pagination_loop _ _ _ _ _ _ _) as [[total | e |] w1];
    simpl in *; inversion H; subst; simpl; rewrite Ht; simpl.
  - split; auto.
    apply (shape_loaded (SQL_CONN_STRING cfg) tr total Hf).
  - split; auto. rewrite <- List.app_assoc.
    apply (shape_failed (SQL_CONN_STRING cfg) tr e Hf).
  - split; [| congruence].
    apply (shape_pending (SQL_CONN_STRING cfg) tr Hf).
Qed.

Lemma loop_events_filter (f : event -> bool) (tr : list event) :
  (forall e, is_loop_event e = true -> f e = false) ->
  Forall (fun e => is_loop_event e = true) tr ->
  List.filter f tr = [].
Proof.
  intros Hf. induction 1 as [| e tr He _ IH]; simpl; [reflexivity |].
  now rewrite (Hf e He).
Qed.

Lemma loop_event_not_truncate (e : event) :
  is_loop_event e = true -> is_truncate e = false.
Proof. destruct e as [| | [] ?]; simpl; try discriminate; reflexivity. Qed.

Lemma loop_event_not_close (e : event) :
  is_loop_event e = true -> is_close e = false.
Proof. destruct e as [| | [] ?]; simpl; try discriminate; reflexivity. Qed.

Lemma loop_event_not_execute (e : event) :
  is_loop_event e = true -> is_execute e = false.
Proof. destruct e as [| | [] ?]; simpl; try discriminate; reflexivity. Qed.

Lemma shape_truncate_count (r : res HttpResponse) (tr : list event) :
  run_shape r tr ->
  (List.length (List.filter is_truncate tr) <= 1)%nat
  /\ List.filter is_execute tr = List.filter is_truncate tr.
Proof.
  destruct 1; simpl; auto;
    rewrite ?List.filter_app;
    rewrite ?(loop_events_filter is_truncate tr loop_event_not_truncate) by assumption;
    rewrite ?(loop_events_filter is_execute tr loop_event_not_execute) by assumption;
    simpl; auto.
Qed.

Lemma shape_insert (r : res HttpResponse) (tr : list event) (i : nat)
    (sql : string) (rows : list (list json)) (ok : bool) :
  run_shape r tr ->
  tr !! i = Some (Db (ExecuteMany sql rows) ok) ->
  rows <> []
  /\ (4 < i)%nat
  /\ tr !! 3%nat = Some (Db (Execute sql_truncate) true)
  /\ tr !! 4%nat = Some (Db Commit true)
  /\ List.length (List.filter is_truncate tr) = 1%nat.
Proof.
  intros Hs Hi.
  assert (Hin : forall l, l !! i = Some (Db (ExecuteMany sql rows) ok) ->
                          List.filter is_insert l <> []).
  { intros l Hl. apply list_elem_of_lookup_2, list_elem_of_In in Hl.
    intros Hn. assert (Hx : In (Db (ExecuteMany sql rows) ok) (List.filter is_insert l))
      by (apply List.filter_In; auto).
    rewrite Hn in Hx. destruct Hx. }
  destruct Hs as [r _ | cs e | cs e | cs e | cs e | cs tr total Hf | cs tr e Hf | cs tr Hf];
    try (exfalso; apply (Hin _ Hi); reflexivity).
  all: assert (Hi5 : (4 < i)%nat)
    by (destruct i as [| [| [| [| [| i]]]]]; simpl in Hi; try discriminate; lia).
  all: assert (Hr : rows <> []).
  1,3: apply list_elem_of_lookup_2 in Hi;
    rewrite !elem_of_app in Hi; destruct Hi as [Hi | [Hi | Hi]];
    [ unfold setup_events, starting_log in Hi;
      repeat (apply elem_of_cons in Hi; destruct Hi as [Hi | Hi]; [discriminate |]);
      inversion Hi
    | rewrite Forall_forall in Hf; apply Hf in Hi; destruct rows; discriminate
    | unfold error_log in Hi;
      repeat (apply elem_of_cons in Hi; destruct Hi as [Hi | Hi]; [discriminate |]);
      inversion Hi ].
  3: apply list_elem_of_lookup_2 in Hi;
    rewrite !elem_of_app in Hi; destruct Hi as [Hi | Hi];
    [ unfold setup_events, starting_log in Hi;
      repeat (apply elem_of_cons in Hi; destruct Hi as [Hi | Hi]; [discriminate |]);
      inversion Hi
    | rewrite Forall_forall in Hf; apply Hf in Hi; destruct rows; discriminate ].
  all: repeat split; auto.
  all: rewrite ?List.filter_app;
    rewrite (loop_events_filter is_truncate tr loop_event_not_truncate) by assumption;
    reflexivity.
Qed.

(** ** Order of the driver calls *)

(** C6 as the code has it: the claim fails for a run that stops before
    the database is reached (no clear at all).  In every run the TRUNCATE
    is issued at most once.  When the settings and the dates are there and
    the connection, the cursor, the TRUNCATE and its commit succeed, the
    table is cleared exactly once, by the fourth and fifth events of the
    run.  And whenever a batch insert is issued, it carries at least one
    row and comes after that one TRUNCATE and its commit, both
    successful. *)
Theorem C6_clear_once_before_inserts (environ : gmap string string)
    (req : HttpRequest) (upstream : list reply) (old : list (list json))
    (faults : nat -> bool) :
  (List.length (List.filter is_truncate
                  (run_trace environ req upstream old faults)) <= 1)%nat
  /\ (~ missing_setting environ ->
      (exists dates, request_dates req = Val dates) ->
      faults 0%nat = false -> faults 1%nat = false ->
      faults 2%nat = false -> faults 3%nat = false ->
      List.length (List.filter is_truncate
                     (run_trace environ req upstream old faults)) = 1%nat
      /\ run_trace environ req upstream old faults !! 3%nat
         = Some (Db (Execute sql_truncate) true)
      /\ run_trace environ req upstream old faults !! 4%nat
         = Some (Db Commit true))
  /\ (forall (i : nat) (sql : string) (rows : list (list json)) (ok : bool),
        run_trace environ req upstream old faults !! i
        = Some (Db (ExecuteMany sql rows) ok) ->
        rows <> []
        /\ (4 < i)%nat
        /\ run_trace environ req upstream old faults !! 3%nat
           = Some (Db (Execute sql_truncate) true)
        /\ run_trace environ req upstream old faults !! 4%nat
           = Some (Db Commit true)
        /\ List.length (List.filter is_truncate
                          (run_trace environ req upstream old faults)) = 1%nat).
Proof.
  unfold run_trace.
  destruct (ingest_toggl_data environ req upstream (initial old faults))
    as [r w'] eqn:Hrun.
  destruct (run_has_shape _ _ _ _ _ _ _ Hrun) as [Hs _]. simpl.
  split; [apply (shape_truncate_count r _ Hs) |]. split.
  - intros Hc [[sd ed] Hd] H0 H1 H2 H3.
    destruct (configuration_present environ Hc) as [cfg Ec].
    assert (H34 : trace w' !! 3%nat = Some (Db (Execute sql_truncate) true)
                  /\ trace w' !! 4%nat = Some (Db Commit true)).
    { rewrite (ingest_ready _ _ _ _ _ _ _ _ Ec Hd H0 H1 H2 H3) in Hrun.
      destruct (pagination_loop_extends cfg sd ed upstream 1 0
                  (ready (SQL_CONN_STRING cfg) faults)) as (tr & Ht & _).
      destruct (pagination_loop _ _ _ _ _ _ _) as [[total | e |] w1];
        simpl in *; inversion Hrun; subst; simpl; rewrite Ht; simpl; auto. }
    split; [| exact H34]. destruct H34 as [H34 _].
    assert (Hin : In (Db (Execute sql_truncate) true)
                     (List.filter is_truncate (trace w'))).
    { apply List.filter_In. split; [| reflexivity].
      apply list_elem_of_In. eapply list_elem_of_lookup_2; eauto. }
    pose proof (proj1 (shape_truncate_count r _ Hs)) as Hle.
    destruct (List.filter is_truncate (trace w')) as [| x [| y l]];
      simpl in *; [tauto | reflexivity | lia].
  - intros i sql rows ok Hi. exact (shape_insert r _ i sql rows ok Hs Hi).
Qed.

Lemma C6_clear_once_before_inserts_witness :
  List.length (List.filter is_truncate
                 (run_trace full_environ week_request two_pages [] no_faults))
  = 1%nat
  /\ run_trace full_environ week_request two_pages [] no_faults !! 3%nat
     = Some (Db (Execute sql_truncate) true)
  /\ run_trace full_environ week_request two_pages [] no_faults !! 4%nat
     = Some (Db Commit true).
Proof.
  pose proof (C6_clear_once_before_inserts
                full_environ week_request two_pages [] no_faults)
    as (_ & Honce & Hins).
  split.
  - apply Honce; try reflexivity; [exact full_environ_complete |].
    eexists. vm_compute. reflexivity.
  - assert (Hi : run_trace full_environ week_request two_pages [] no_faults !! 6%nat
                 = Some (Db (ExecuteMany sql_insert
                               [ [JInt 1; JInt 9; JInt 3; JNull; JNull;
                                  JStr "review"; JStr "2024-01-02T09:00:00";
                                  JNull; JInt 600; JNull];
                                 [JInt 2; JInt 9; JInt 3; JNull; JNull;
                                  JStr "review"; JStr "2024-01-02T09:00:00";
                                  JNull; JInt 600; JNull] ])
                            true))
      by (vm_compute; reflexivity).
    destruct (Hins _ _ _ _ Hi) as (_ & _ & H3 & H4 & _). split; assumption.
Defined.

(** C6, the claim as written, fails: with no setting in the environment
    the run ends without a single TRUNCATE. *)
Lemma C6_counterexample :
  List.filter is_truncate (run_trace ∅ week_request two_pages [] no_faults) = []
  /\ List.length
       (List.filter is_truncate (run_trace ∅ week_request two_pages [] no_faults))
     <> 1%nat.
Proof. split; [reflexivity | discriminate]. Qed.

(** C8: in a run that has ended and in which [pyodbc.connect] succeeded,
    the function returns a response, [conn.close()] was called exactly
    once, it is the last thing the run did, and no session is left. *)
Theorem C8_session_closed_once (environ : gmap string string)
    (req : HttpRequest) (upstream : list reply) (old : list (list json))
    (faults : nat -> bool) :
  fst (ingest_toggl_data environ req upstream (initial old faults)) <> Pending ->
  (exists cs, In (Db (Connect cs) true)
                 (run_trace environ req upstream old faults)) ->
  (exists response,
      fst (ingest_toggl_data environ req upstream (initial old faults))
      = Val response)
  /\ List.length (List.filter is_close
                    (run_trace environ req upstream old faults)) = 1%nat
  /\ last (run_trace environ req upstream old faults) = Some (Db Close true)
  /\ session (snd (ingest_toggl_data environ req upstream (initial old faults)))
     = None.
Proof.
  unfold run_trace.
  destruct (ingest_toggl_data environ req upstream (initial old faults))
    as [r w'] eqn:Hrun.
  destruct (run_has_shape _ _ _ _ _ _ _ Hrun) as [Hs Hc]. simpl.
  intros Hp [cs Hin]. specialize (Hc Hp).
  destruct Hs as [r _ | cs' e | cs' e | cs' e | cs' e | cs' tr total Hf
                  | cs' tr e Hf | cs' tr Hf].
  - simpl in Hin. unfold starting_log in Hin. destruct Hin as [? | []]; discriminate.
  - simpl in Hin. unfold starting_log, error_log in Hin.
    destruct Hin as [? | [? | [? | []]]]; discriminate.
  - repeat split; eauto.
  - repeat split; eauto.
  - repeat split; eauto.
  - split; [eauto |]. split; [| split; [| exact Hc]].
    + rewrite !List.filter_app,
        (loop_events_filter is_close tr loop_event_not_close Hf). reflexivity.
    + rewrite List.app_assoc. apply last_snoc.
  - split; [eauto |]. split; [| split; [| exact Hc]].
    + rewrite !List.filter_app,
        (loop_events_filter is_close tr loop_event_not_close Hf). reflexivity.
    + change [error_log e; Db Close true] with ([error_log e] ++ [Db Close true])%list.
      rewrite !List.app_assoc. apply last_snoc.
  - congruence.
Qed.

Lemma C8_session_closed_once_witness :
  (exists response,
      fst (ingest_toggl_data full_environ week_request two_pages
                             (initial [] (fault_at 5)))
      = Val response)
  /\ List.length (List.filter is_close
                    (run_trace full_environ week_request two_pages []
                               (fault_at 5))) = 1%nat
  /\ last (run_trace full_environ week_request two_pages [] (fault_at 5))
     = Some (Db Close true)
  /\ session (snd (ingest_toggl_data full_environ week_request two_pages
                                     (initial [] (fault_at 5))))
     = None.
Proof.
  apply (C8_session_closed_once full_environ week_request two_pages []
                                (fault_at 5)).
  - vm_compute. discriminate.
  - exists "Driver=ODBC;Server=staging". vm_compute. auto.
Defined.

(** ** Turns of the loop without a fault *)

Lemma page_rows_inv (page : Response) (rows : list (list json)) :
  page_rows page = Some rows ->
  exists data,
    read_reply (Answer page) = Val (page, data)
    /\ ((truthy data = true /\ flatten_page data = Val rows
         /\ zero_entries page = false)
        \/ (truthy data = false /\ rows = [] /\ zero_entries page = true)).
Proof.
  unfold page_rows, read_reply, zero_entries.
  destruct (raise_for_status page) as [[] | |]; try discriminate.
  destruct (response_json page) as [data | |]; try discriminate. simpl.
  destruct (truthy data) eqn:Ht.
  - destruct (flatten_page data) as [rows' | |] eqn:Hf; try discriminate.
    intros [= <-]. exists data. split; [reflexivity |]. left.
    repeat split; assumption || reflexivity.
  - intros [= <-]. exists data. split; [reflexivity |]. right.
    repeat split; assumption || reflexivity.
Qed.

Lemma bulk_insert_ok (rows : list (list json)) (total : Z) (w : world) :
  session w = Some (table w) ->
  (rows <> [] -> faults w (calls w) = false /\ faults w (S (calls w)) = false) ->
  bulk_insert rows total w
  = (Val (total + Z.of_nat (List.length rows)), loaded rows w).
Proof.
  intros Hs Hf. destruct rows as [| row rows].
  { simpl. unfold ret. now rewrite Z.add_0_r. }
  destruct Hf as [H0 H1]; [discriminate |].
  unfold bulk_insert, bind at 1, cursor_executemany, driver. rewrite H0.
  unfold bind at 1, conn_commit, driver. simpl. rewrite H1, Hs.
  unfold ret, loaded, set_table, set_session, emit, count_call. simpl.
  now rewrite <- List.app_assoc.
Qed.

Lemma turn_reaches_pagination (cfg : config) (sd ed : json) (page : Response)
    (rest : list reply) (frn total : Z) (w : world) :
  is_Some (page_rows page) ->
  zero_entries page = false ->
  session w = Some (table w) ->
  (rows_of page <> [] ->
   faults w (calls w) = false /\ faults w (S (calls w)) = false) ->
  pagination_loop cfg sd ed (Answer page :: rest) frn total w
  = handle_pagination cfg sd ed rest page
      (total + Z.of_nat (List.length (rows_of page)))
      (after_page cfg sd ed frn page w).
Proof.
  intros [rows Hr] Hz Hs Hf. unfold rows_of in *. rewrite Hr in *. simpl in *.
  destruct (page_rows_inv page rows Hr) as (data & Hd & [(Ht & Hfl & _) | (_ & _ & Hz')]);
    [| congruence].
  unfold bind at 1. rewrite call_api_eq, Hd, Ht. simpl.
  unfold bind at 1, lift at 1. rewrite Hfl.
  unfold bind at 1. rewrite bulk_insert_ok by assumption.
  unfold after_page, rows_of. rewrite Hr. reflexivity.
Qed.

Lemma batches_cons (page : Response) (pages : list Response) :
  batches (page :: pages)
  = ((match rows_of page with [] => 0 | _ :: _ => 1 end) + batches pages)%nat.
Proof. unfold batches. simpl. destruct (rows_of page); reflexivity. Qed.

Lemma total_rows_cons (page : Response) (pages : list Response) :
  total_rows (page :: pages)
  = Z.of_nat (List.length (rows_of page)) + total_rows pages.
Proof. unfold total_rows. simpl. rewrite List.length_app. lia. Qed.

Lemma advanced_refl (w : world) :
  session w = Some (table w) -> advanced w w [] 0 0.
Proof.
  intros Hs. unfold advanced. rewrite app_nil_r, !Nat.add_0_r.
  repeat split; auto.
Qed.

Lemma advanced_trans (w1 w2 w3 : world) (r1 r2 : list (list json))
    (f1 f2 b1 b2 : nat) :
  advanced w1 w2 r1 f1 b1 -> advanced w2 w3 r2 f2 b2 ->
  advanced w1 w3 (r1 ++ r2) (f1 + f2) (b1 + b2).
Proof.
  intros (T1 & S1 & F1 & C1 & P1 & E1) (T2 & S2 & F2 & C2 & P2 & E2).
  unfold advanced. repeat split.
  - now rewrite T2, T1, List.app_assoc.
  - exact S2.
  - congruence.
  - lia.
  - lia.
  - congruence.
Qed.

Lemma after_page_advanced (cfg : config) (sd ed : json) (frn : Z)
    (page : Response) (w : world) :
  session w = Some (table w) ->
  advanced w (after_page cfg sd ed frn page w) (rows_of page) 1
           (batches [page]).
Proof.
  intros Hs. unfold after_page, advanced. rewrite batches_cons.
  destruct (rows_of page) as [| row rows]; simpl.
  - rewrite app_nil_r, !List.filter_app, List.length_app. simpl.
    repeat split; auto; try lia. now rewrite app_nil_r.
  - rewrite !List.filter_app, !List.length_app. simpl.
    repeat split; auto; try lia. now rewrite !app_nil_r.
Qed.

Lemma after_pages_advanced (cfg : config) (sd ed : json) (pages : list Response) :
  forall (frn : Z) (w : world),
    session w = Some (table w) ->
    advanced w (snd (after_pages cfg sd ed pages frn w))
             (concat (map rows_of pages)) (List.length pages) (batches pages).
Proof.
  induction pages as [| page pages IH]; intros frn w Hs; simpl.
  { now apply advanced_refl. }
  pose proof (after_page_advanced cfg sd ed frn page w Hs) as H1.
  assert (Hs1 : session (after_page cfg sd ed frn page w)
                = Some (table (after_page cfg sd ed frn page w)))
    by apply H1.
  pose proof (IH (default frn (next_row_number page)) _ Hs1) as H2.
  pose proof (advanced_trans _ _ _ _ _ _ _ _ _ H1 H2) as H3.
  rewrite batches_cons. rewrite batches_cons in H3. simpl in H3.
  rewrite Nat.add_0_r in H3. exact H3.
Qed.

Lemma handle_pagination_next (cfg : config) (sd ed : json) (rest : list reply)
    (page : Response) (total n : Z) (w : world) :
  next_row_number page = Some n ->
  handle_pagination cfg sd ed rest page total w
  = pagination_loop cfg sd ed rest n total w.
Proof.
  unfold next_row_number, handle_pagination.
  destruct (headers_get page "X-Next-Row-Number") as [s |]; [| discriminate].
  destruct (negb (s =? "")%string); [| discriminate].
  intros Hp. unfold bind, lift, py_int. now rewrite Hp.
Qed.

Lemma more_pages_inv (page : Response) :
  more_pages page = true ->
  is_Some (page_rows page) /\ zero_entries page = false
  /\ exists n, next_row_number page = Some n.
Proof.
  unfold more_pages. rewrite !andb_true_iff, negb_true_iff, !bool_decide_eq_true.
  intros [[H1 H2] [n H3]]. eauto.
Qed.

Lemma loop_through_pages (cfg : config) (sd ed : json) (pages : list Response)
    (rest : list reply) :
  forall (frn total : Z) (w : world),
    Forall (fun page => more_pages page = true) pages ->
    session w = Some (table w) ->
    no_fault_between (faults w) (calls w) (2 * batches pages) ->
    pagination_loop cfg sd ed (map Answer pages ++ rest) frn total w
    = pagination_loop cfg sd ed rest
        (fst (after_pages cfg sd ed pages frn w))
        (total + total_rows pages)
        (snd (after_pages cfg sd ed pages frn w)).
Proof.
  induction pages as [| page pages IH]; intros frn total w Hm Hs Hf.
  { simpl. unfold total_rows. simpl. now rewrite Z.add_0_r. }
  inversion Hm as [| ? ? Hp Hm']; subst.
  destruct (more_pages_inv page Hp) as (Hr & Hz & n & Hn).
  rewrite batches_cons in Hf.
  change (map Answer (page :: pages) ++ rest)%list
    with (Answer page :: (map Answer pages ++ rest))%list.
  rewrite turn_reaches_pagination; try assumption.
  2:{ intros Hne. split; apply Hf; destruct (rows_of page); try congruence; lia. }
  rewrite (handle_pagination_next _ _ _ _ _ _ n _ Hn).
  pose proof (after_page_advanced cfg sd ed frn page w Hs)
    as (_ & Hs1 & Hf1 & Hc1 & _).
  rewrite batches_cons in Hc1. simpl in Hc1.
  rewrite IH; try assumption.
  - simpl. rewrite Hn. simpl. rewrite total_rows_cons. f_equal. lia.
  - intros i Hi. rewrite Hf1. apply Hf. rewrite Hc1 in Hi.
    destruct (rows_of page); simpl in *; lia.
Qed.

Lemma last_turn (cfg : config) (sd ed : json) (page : Response)
    (rest : list reply) (frn total : Z) (w : world) :
  last_page page = true ->
  session w = Some (table w) ->
  (rows_of page <> [] ->
   faults w (calls w) = false /\ faults w (S (calls w)) = false) ->
  pagination_loop cfg sd ed (Answer page :: rest) frn total w
  = (Val (total + Z.of_nat (List.length (rows_of page))),
     after_page cfg sd ed frn page w).
Proof.
  unfold last_page. rewrite andb_true_iff, orb_true_iff, !bool_decide_eq_true.
  intros [Hr Hl] Hs Hf.
  destruct (zero_entries page) eqn:Hz.
  - destruct Hr as [rows Hr].
    destruct (page_rows_inv page rows Hr) as (data & Hd & [(_ & _ & Hz') | (Ht & -> & _)]);
      [congruence |].
    simpl. unfold bind at 1. rewrite call_api_eq, Hd, Ht. simpl.
    unfold after_page, rows_of, ret. rewrite Hr. simpl. now rewrite Z.add_0_r.
  - destruct Hl as [Hl | Hl]; [discriminate |].
    rewrite turn_reaches_pagination by assumption.
    unfold handle_pagination. now rewrite Hl.
Qed.

Lemma failing_turn (cfg : config) (sd ed : json) (bad : reply)
    (rest : list reply) (frn total : Z) (w : world) (e : exn) :
  failure_at (faults w) (calls w) bad = Some e ->
  session w = Some (table w) ->
  exists w1,
    pagination_loop cfg sd ed (bad :: rest) frn total w = (Exn e, w1)
    /\ is_Some (session w1)
    /\ table w1 = table w
    /\ List.filter is_execute (trace w1) = List.filter is_execute (trace w)
    /\ List.length (List.filter is_post (trace w1))
       = S (List.length (List.filter is_post (trace w))).
Proof.
  unfold failure_at. intros Hfail Hs. simpl. unfold bind at 1.
  rewrite call_api_eq.
  destruct (read_reply bad) as [[resp data] | e' |]; [| | discriminate].
  2:{ injection Hfail as <-. eexists. split; [reflexivity |]. simpl.
      rewrite Hs, !List.filter_app, List.length_app. simpl.
      repeat split; eauto; [now rewrite app_nil_r | lia]. }
  destruct (truthy data); [| discriminate]. simpl.
  unfold bind at 1, lift at 1.
  destruct (flatten_page data) as [[| row rows] | |]; try discriminate.
  unfold bind at 1, bulk_insert, bind at 1, cursor_executemany, driver. simpl.
  destruct (faults w (calls w)).
  { injection Hfail as <-. eexists. split; [reflexivity |]. simpl.
    rewrite Hs, !List.filter_app, !List.length_app. simpl.
    repeat split; eauto; [now rewrite !app_nil_r | lia]. }
  unfold bind at 1, conn_commit, driver. simpl.
  destruct (faults w (S (calls w))); [| discriminate].
  injection Hfail as <-. eexists. split; [reflexivity |]. simpl.
  rewrite Hs, !List.filter_app, !List.length_app. simpl.
  repeat split; eauto; [now rewrite !app_nil_r | lia].
Qed.

Lemma bad_cursor_turn (cfg : config) (sd ed : json) (page : Response)
    (rest : list reply) (frn total : Z) (w : world) (s : string) :
  is_Some (page_rows page) ->
  zero_entries page = false ->
  bad_cursor page = Some s ->
  session w = Some (table w) ->
  (rows_of page <> [] ->
   faults w (calls w) = false /\ faults w (S (calls w)) = false) ->
  pagination_loop cfg sd ed (Answer page :: rest) frn total w
  = (Exn (InvalidLiteral s), after_page cfg sd ed frn page w).
Proof.
  intros Hr Hz Hb Hs Hf. rewrite turn_reaches_pagination by assumption.
  unfold bad_cursor in Hb. unfold handle_pagination.
  destruct (headers_get page "X-Next-Row-Number") as [s' |]; [| discriminate].
  destruct (negb (s' =? "")%string); [| discriminate].
  destruct (parse_int s') eqn:Hp; [discriminate |]. injection Hb as <-.
  unfold bind, lift, py_int. now rewrite Hp.
Qed.

Lemma run_through_pages (environ : gmap string string) (req : HttpRequest)
    (old : list (list json)) (faults : nat -> bool) (cfg : config)
    (sd ed : json) (pages : list Response) (rest : list reply) :
  configuration environ = Val cfg ->
  request_dates req = Val (sd, ed) ->
  Forall (fun page => more_pages page = true) pages ->
  no_fault_between faults 0 (4 + 2 * batches pages) ->
  exists (frn : Z) (w : world),
    ingest_toggl_data environ req (map Answer pages ++ rest) (initial old faults)
    = finish (pagination_loop cfg sd ed rest frn (total_rows pages) w)
    /\ advanced (ready (SQL_CONN_STRING cfg) faults) w
                (concat (map rows_of pages)) (List.length pages) (batches pages).
Proof.
  intros Ec Ed Hm Hf.
  exists (fst (after_pages cfg sd ed pages 1 (ready (SQL_CONN_STRING cfg) faults))),
         (snd (after_pages cfg sd ed pages 1 (ready (SQL_CONN_STRING cfg) faults))).
  split.
  - rewrite (ingest_ready _ _ _ _ _ _ _ _ Ec Ed) by (apply Hf; lia).
    rewrite loop_through_pages; auto.
    intros i Hi. simpl in *. apply Hf. lia.
  - apply after_pages_advanced. reflexivity.
Qed.

(** ** The pagination loop *)

(** C5: let the API answer with pages that each have entries, flatten
    without error and carry an integer cursor, then with a page that has no
    cursor header or has zero entries, and let no driver call fail.  The
    run then sends exactly one request per page up to that last one (none
    after it, whatever else the API could have answered), returns the 200
    response whose total is the number of rows flattened from those pages,
    and the table holds those rows. *)
Theorem C5_pagination_terminates (environ : gmap string string)
    (req : HttpRequest) (old : list (list json)) (faults : nat -> bool)
    (dates : json * json) (pages : list Response) (final : Response)
    (rest : list reply) :
  ~ missing_setting environ ->
  request_dates req = Val dates ->
  (forall k : nat, faults k = false) ->
  Forall (fun page => more_pages page = true) pages ->
  last_page final = true ->
  fst (ingest_toggl_data environ req (map Answer pages ++ Answer final :: rest)
                         (initial old faults))
  = Val (success_response (total_rows (pages ++ [final])))
  /\ List.length
       (List.filter is_post
          (run_trace environ req (map Answer pages ++ Answer final :: rest)
                     old faults))
     = List.length (pages ++ [final])
  /\ table (snd (ingest_toggl_data environ req
                   (map Answer pages ++ Answer final :: rest)
                   (initial old faults)))
     = concat (map rows_of (pages ++ [final])).
Proof.
  intros Hc Hd Hf Hm Hl. destruct dates as [sd ed].
  destruct (configuration_present environ Hc) as [cfg Ec].
  destruct (run_through_pages environ req old faults cfg sd ed pages
              (Answer final :: rest) Ec Hd Hm ltac:(intros i _; apply Hf))
    as (frn & w & Hrun & Ha).
  unfold run_trace. rewrite Hrun.
  assert (Hs : session w = Some (table w)) by apply Ha.
  rewrite last_turn; auto.
  2:{ intros _. destruct Ha as (_ & _ & -> & _). auto. }
  pose proof (advanced_trans _ _ _ _ _ _ _ _ _ Ha
                (after_page_advanced cfg sd ed frn final w Hs))
    as (Ht & _ & _ & _ & Hp & _).
  simpl. repeat split.
  - unfold total_rows. rewrite map_app, concat_app, List.length_app. simpl.
    rewrite app_nil_r. do 2 f_equal. lia.
  - rewrite List.filter_app, List.length_app, Hp, List.length_app. simpl. lia.
  - rewrite Ht, map_app, concat_app. simpl. now rewrite app_nil_r.
Qed.

Lemma C5_pagination_terminates_witness :
  fst (ingest_toggl_data full_environ week_request
         (map Answer [page_of [entry_of 1 []; entry_of 2 []] (Some "3")]
          ++ Answer (page_of [entry_of 3 []] None) :: [])
         (initial [] no_faults))
  = Val (success_response 3)
  /\ List.length
       (List.filter is_post
          (run_trace full_environ week_request
             (map Answer [page_of [entry_of 1 []; entry_of 2 []] (Some "3")]
              ++ Answer (page_of [entry_of 3 []] None) :: [])
             [] no_faults))
     = 2%nat.
Proof.
  pose proof (C5_pagination_terminates full_environ week_request [] no_faults
                (JStr "2024-01-01", JStr "2024-01-07")
                [page_of [entry_of 1 []; entry_of 2 []] (Some "3")]
                (page_of [entry_of 3 []] None) []
                full_environ_complete
                ltac:(vm_compute; reflexivity)
                (fun _ => eq_refl)
                ltac:(repeat constructor)
                ltac:(vm_compute; reflexivity))
    as (H1 & H2 & _).
  split; [exact H1 | exact H2].
Defined.

(** ** Failures while loading *)

(** C7: after pages that were fetched, flattened and committed without a
    fault, let the next turn fail in the fetch (API unreachable, error
    status, body that does not decode) or in the storage (the insert or
    its commit).  The run returns the 500 "Error" response; the table holds
    exactly the rows of the earlier pages; and the one statement executed
    in the whole run is the opening TRUNCATE: nothing is deleted
    afterwards. *)
Theorem C7_committed_pages_remain (environ : gmap string string)
    (req : HttpRequest) (old : list (list json)) (faults : nat -> bool)
    (dates : json * json) (pages : list Response) (bad : reply)
    (rest : list reply) (e : exn) :
  ~ missing_setting environ ->
  request_dates req = Val dates ->
  Forall (fun page => more_pages page = true) pages ->
  no_fault_between faults 0 (4 + 2 * batches pages) ->
  failure_at faults (4 + 2 * batches pages) bad = Some e ->
  fst (ingest_toggl_data environ req (map Answer pages ++ bad :: rest)
                         (initial old faults))
  = Val (error_response e)
  /\ table (snd (ingest_toggl_data environ req (map Answer pages ++ bad :: rest)
                                   (initial old faults)))
     = concat (map rows_of pages)
  /\ List.filter is_execute
       (run_trace environ req (map Answer pages ++ bad :: rest) old faults)
     = [Db (Execute sql_truncate) true]
  /\ List.length
       (List.filter is_post
          (run_trace environ req (map Answer pages ++ bad :: rest) old faults))
     = S (List.length pages).
Proof.
  intros Hc Hd Hm Hf Hbad. destruct dates as [sd ed].
  destruct (configuration_present environ Hc) as [cfg Ec].
  destruct (run_through_pages environ req old faults cfg sd ed pages
              (bad :: rest) Ec Hd Hm Hf)
    as (frn & w & Hrun & (Ht & Hs & Hfa & Hca & Hp & He)).
  unfold run_trace. rewrite Hrun.
  destruct (failing_turn cfg sd ed bad rest frn (total_rows pages) w e)
    as (w1 & Hl & _ & Ht1 & He1 & Hp1).
  { rewrite Hfa, Hca. exact Hbad. }
  { exact Hs. }
  rewrite Hl. simpl. repeat split.
  - now rewrite Ht1, Ht.
  - rewrite !List.filter_app, He1, He. reflexivity.
  - rewrite !List.filter_app, !List.length_app, Hp1, Hp. simpl. lia.
Qed.

Lemma C7_committed_pages_remain_witness :
  fst (ingest_toggl_data full_environ week_request
         (map Answer [page_of [entry_of 1 []; entry_of 2 []] (Some "3")]
          ++ Answer (mkResponse 500 (inl "no body") ∅) :: [])
         (initial [] no_faults))
  = Val (error_response (HTTPError 500))
  /\ table (snd (ingest_toggl_data full_environ week_request
                   (map Answer [page_of [entry_of 1 []; entry_of 2 []] (Some "3")]
                    ++ Answer (mkResponse 500 (inl "no body") ∅) :: [])
                   (initial [] no_faults)))
     = concat (map rows_of [page_of [entry_of 1 []; entry_of 2 []] (Some "3")]).
Proof.
  pose proof (C7_committed_pages_remain full_environ week_request [] no_faults
                (JStr "2024-01-01", JStr "2024-01-07")
                [page_of [entry_of 1 []; entry_of 2 []] (Some "3")]
                (Answer (mkResponse 500 (inl "no body") ∅)) []
                (HTTPError 500)
                full_environ_complete
                ltac:(vm_compute; reflexivity)
                ltac:(repeat constructor)
                (fun _ _ => eq_refl)
                ltac:(vm_compute; reflexivity))
    as (H1 & H2 & _).
  split; [exact H1 | exact H2].
Defined.

Lemma read_reply_answer (page response : Response) (data : json) :
  read_reply (Answer page) = Val (response, data) -> response = page.
Proof.
  unfold read_reply. destruct (raise_for_status page); simpl; try discriminate.
  destruct (response_json page); simpl; try discriminate. now intros [= <- _].
Qed.

Lemma read_reply_not_pending (r : reply) : read_reply r <> Pending.
Proof.
  destruct r as [msg | page]; simpl; [discriminate |].
  unfold raise_for_status, response_json.
  destruct (_ && _); simpl; [discriminate |].
  destruct (content page); discriminate.
Qed.

Lemma flatten_entry_not_pending (entry : json) : flatten_entry entry <> Pending.
Proof.
  unfold flatten_entry. intros H.
  repeat match type of H with
         | res_bind ?r _ = _ => destruct r eqn:?; simpl in H; try discriminate
         | (if ?b then _ else _) = _ => destruct b; simpl in H; try discriminate
         end;
    repeat match goal with
           | E : py_get ?v _ = Pending |- _ => destruct v; discriminate E
           | E : py_getitem ?v _ = Pending |- _ =>
               destruct v; simpl in E; try discriminate E;
               destruct (_ !! _); discriminate E
           | E : py_getitem0 ?v = Pending |- _ =>
               destruct v as [| | | | [|] | [|] |]; discriminate E
           end.
Qed.

Lemma for_entry_in_not_pending (data : list json) :
  forall acc, for_entry_in data acc <> Pending.
Proof.
  induction data as [| entry data IH]; intros acc; simpl; [discriminate |].
  pose proof (flatten_entry_not_pending entry) as Hn.
  destruct (flatten_entry entry) as [[row |] | e |];
    [apply IH | apply IH | discriminate | contradiction].
Qed.

Lemma flatten_page_not_pending (data : json) : flatten_page data <> Pending.
Proof.
  unfold flatten_page.
  destruct (py_iter data) eqn:E; simpl;
    [apply for_entry_in_not_pending | discriminate |].
  destruct data; discriminate.
Qed.

Lemma bulk_insert_posts (rows : list (list json)) (total : Z) (w : world) :
  fst (bulk_insert rows total w) <> Pending
  /\ List.filter is_post (trace (snd (bulk_insert rows total w)))
     = List.filter is_post (trace w).
Proof.
  destruct rows as [| row rows]; simpl; [split; [discriminate | reflexivity] |].
  unfold bind, cursor_executemany, conn_commit, ret.
  destruct (driver_cases (ExecuteMany sql_insert (row :: rows)) "executemany"
              (fun w => set_session
                          (option_map (fun t => (t ++ row :: rows)%list) (session w)) w) w)
    as [[_ ->] | [_ ->]].
  { simpl. rewrite List.filter_app. simpl. rewrite app_nil_r.
    split; [discriminate | reflexivity]. }
  match goal with |- context [driver Commit "commit" ?f ?w0] =>
    destruct (driver_cases Commit "commit" f w0) as [[_ ->] | [_ ->]] end.
  - simpl. rewrite !List.filter_app. simpl. rewrite !app_nil_r.
    split; [discriminate | reflexivity].
  - split; [discriminate |].
    destruct (session w) as [v |] eqn:Es; simpl; rewrite ?Es; simpl;
      rewrite !List.filter_app; simpl; now rewrite !app_nil_r.
Qed.

Lemma bad_cursor_stops (cfg : config) (sd ed : json) (page : Response)
    (rest : list reply) (frn total : Z) (w : world) (s : string) :
  ends_on_empty page = false ->
  bad_cursor page = Some s ->
  exists (e : exn) (w1 : world),
    pagination_loop cfg sd ed (Answer page :: rest) frn total w = (Exn e, w1)
    /\ List.length (List.filter is_post (trace w1))
       = S (List.length (List.filter is_post (trace w))).
Proof.
  intros Hne Hb. simpl. unfold bind at 1. rewrite call_api_eq.
  set (w1 := emit (Post (URL cfg) (make_payload sd ed frn) (AUTH cfg)) w).
  assert (Hp1 : List.length (List.filter is_post (trace w1))
                = S (List.length (List.filter is_post (trace w)))).
  { unfold w1. simpl. rewrite List.filter_app, List.length_app. simpl. lia. }
  unfold ends_on_empty in Hne.
  pose proof (read_reply_not_pending (Answer page)) as Hnp.
  destruct (read_reply (Answer page)) as [[resp data] | e |] eqn:Hr;
    [| eauto | contradiction].
  apply read_reply_answer in Hr. subst resp.
  apply negb_false_iff in Hne. rewrite Hne. simpl.
  unfold bind at 1, lift at 1.
  pose proof (flatten_page_not_pending data) as Hfp.
  destruct (flatten_page data) as [rows | e |]; [| eauto | contradiction].
  unfold bind at 1.
  destruct (bulk_insert_posts rows total w1) as [Hbp Hposts].
  destruct (bulk_insert rows total w1) as [[total' | e |] w2]; simpl in *;
    [| exists e, w2; split; [reflexivity | now rewrite Hposts]
     | contradiction].
  unfold bad_cursor in Hb.
  destruct (headers_get page "X-Next-Row-Number") as [s' |]; [| discriminate].
  destruct (negb (s' =? "")%string); [| discriminate].
  destruct (parse_int s') eqn:Hp; [discriminate |]. injection Hb as <-.
  unfold bind, lift, py_int. rewrite Hp.
  exists (InvalidLiteral s'), w2. split; [reflexivity | now rewrite Hposts].
Qed.

Lemma ends_on_empty_zero_entries (page : Response) :
  is_Some (page_rows page) ->
  ends_on_empty page = false ->
  zero_entries page = false.
Proof.
  intros [rows Hr] He.
  destruct (page_rows_inv page rows Hr)
    as (data & Hd & [(_ & _ & Hz) | (Ht & _ & _)]); [exact Hz |].
  unfold ends_on_empty in He. rewrite Hd, Ht in He. discriminate.
Qed.

(** C10 as the code has it: the claim fails for a page of zero entries
    (the loop stops at [if not data] before the header is looked at) and
    for an empty header value (taken as "no more pages").  After pages
    loaded without a fault, a page that does not end the loop as an empty
    one and carries a header value that is not empty and that [int]
    rejects makes the run return a 500 "Error" response, and the request
    for that page is the last one sent, whatever replies the API still had.
    When that page is flattened and stored without a fault, the error is
    the [ValueError] of [int] on that value. *)
Theorem C10_cursor_not_an_integer (environ : gmap string string)
    (req : HttpRequest) (old : list (list json)) (faults : nat -> bool)
    (dates : json * json) (pages : list Response) (bad : Response)
    (rest : list reply) (next_row : string) :
  ~ missing_setting environ ->
  request_dates req = Val dates ->
  Forall (fun page => more_pages page = true) pages ->
  no_fault_between faults 0 (4 + 2 * batches pages) ->
  ends_on_empty bad = false ->
  bad_cursor bad = Some next_row ->
  (exists e : exn,
      fst (ingest_toggl_data environ req (map Answer pages ++ Answer bad :: rest)
                             (initial old faults))
      = Val (error_response e)
      /\ status_code (error_response e) = 500)
  /\ List.length
       (List.filter is_post
          (run_trace environ req (map Answer pages ++ Answer bad :: rest)
                     old faults))
     = S (List.length pages)
  /\ (is_Some (page_rows bad) ->
      faults (4 + 2 * batches pages)%nat = false ->
      faults (S (4 + 2 * batches pages)) = false ->
      fst (ingest_toggl_data environ req (map Answer pages ++ Answer bad :: rest)
                             (initial old faults))
      = Val (error_response (InvalidLiteral next_row))).
Proof.
  intros Hc Hd Hm Hf Hne Hb. destruct dates as [sd ed].
  destruct (configuration_present environ Hc) as [cfg Ec].
  destruct (run_through_pages environ req old faults cfg sd ed pages
              (Answer bad :: rest) Ec Hd Hm Hf)
    as (frn & w & Hrun & (Ht & Hs & Hfa & Hca & Hp & He)).
  unfold run_trace. rewrite Hrun.
  split; [| split].
  - destruct (bad_cursor_stops cfg sd ed bad rest frn (total_rows pages) w
                next_row Hne Hb) as (e & w1 & Hl & _).
    rewrite Hl. simpl. eauto.
  - destruct (bad_cursor_stops cfg sd ed bad rest frn (total_rows pages) w
                next_row Hne Hb) as (e & w1 & Hl & Hp1).
    rewrite Hl. simpl. rewrite !List.filter_app, !List.length_app, Hp1, Hp.
    simpl. lia.
  - intros Hr H0 H1.
    rewrite (bad_cursor_turn cfg sd ed bad rest frn _ w next_row Hr
               (ends_on_empty_zero_entries bad Hr Hne) Hb).
    + reflexivity.
    + now rewrite Hs.
    + intros _. rewrite Hfa, Hca. auto.
Qed.

Lemma C10_cursor_not_an_integer_witness :
  (exists e : exn,
      fst (ingest_toggl_data full_environ week_request
             (map Answer [] ++ Answer (page_of [entry_of 1 []] (Some "abc"))
              :: [Answer (page_of [entry_of 2 []] None)])
             (initial [] no_faults))
      = Val (error_response e)
      /\ status_code (error_response e) = 500)
  /\ List.length
       (List.filter is_post
          (run_trace full_environ week_request
             (map Answer [] ++ Answer (page_of [entry_of 1 []] (Some "abc"))
              :: [Answer (page_of [entry_of 2 []] None)])
             [] no_faults))
     = 1%nat
  /\ fst (ingest_toggl_data full_environ week_request
            (map Answer [] ++ Answer (page_of [entry_of 1 []] (Some "abc"))
             :: [Answer (page_of [entry_of 2 []] None)])
            (initial [] no_faults))
     = Val (error_response (InvalidLiteral "abc")).
Proof.
  pose proof (C10_cursor_not_an_integer full_environ week_request [] no_faults
                (JStr "2024-01-01", JStr "2024-01-07") []
                (page_of [entry_of 1 []] (Some "abc"))
                [Answer (page_of [entry_of 2 []] None)] "abc"
                full_environ_complete
                ltac:(vm_compute; reflexivity)
                ltac:(constructor)
                (fun _ _ => eq_refl)
                ltac:(vm_compute; reflexivity)
                ltac:(vm_compute; reflexivity))
    as (H1 & H2 & H3).
  split; [exact H1 |]. split; [exact H2 |].
  apply H3; [vm_compute; eauto | reflexivity | reflexivity].
Defined.

(** C10, the claim as written, fails twice.  A page of zero entries
    carries the header value ["abc"], which is not an integer, and the run
    returns the 200 response.  A page with an entry carries an empty header
    value, which is not an integer either, and the run again returns the
    200 response, without asking for the page the API still had. *)
Lemma C10_counterexample :
  (headers_get (page_of [] (Some "abc")) "X-Next-Row-Number" = Some "abc"
   /\ py_int "abc" = Exn (InvalidLiteral "abc")
   /\ fst (ingest_toggl_data full_environ week_request
             [Answer (page_of [] (Some "abc"))] (initial [] no_faults))
      = Val (success_response 0)
   /\ status_code (success_response 0) <> 500)
  /\ (headers_get (page_of [entry_of 1 []] (Some "")) "X-Next-Row-Number"
      = Some ""
      /\ py_int "" = Exn (InvalidLiteral "")
      /\ fst (ingest_toggl_data full_environ week_request
                [Answer (page_of [entry_of 1 []] (Some ""));
                 Answer (page_of [entry_of 2 []] None)]
                (initial [] no_faults))
         = Val (success_response 1)
      /\ status_code (success_response 1) <> 500).
Proof. repeat split; try (vm_compute; reflexivity); discriminate. Qed.

(** * Further properties *)

(** ** [http_trigger_test] *)

Lemma trigger_with_query_name (params : gmap string string) (req : HttpRequest)
    (w : world) (s : string) :
  params !! "name" = Some s ->
  s <> "" ->
  http_trigger_test params req w = (Val (hello (JStr s)), emit trigger_log w).
Proof.
  intros Hp Hs. unfold http_trigger_test, bind at 1, logging. rewrite Hp.
  assert (Ht : truthy (JStr s) = true).
  { simpl. destruct (String.eqb_spec s ""); [contradiction | reflexivity]. }
  rewrite Ht. simpl. unfold bind, ret. rewrite Ht. reflexivity.
Qed.

(** X1: a non-empty [name] in the query string decides the response: the
    greeting carries it, the status is 200, and the body of the request is
    not read, so that any other body gives the same outcome. *)
Theorem X1_query_name_wins (params : gmap string string) (req : HttpRequest)
    (w : world) (s : string) :
  params !! "name" = Some s ->
  s <> "" ->
  http_trigger_test params req w = (Val (hello (JStr s)), emit trigger_log w)
  /\ forall req' : HttpRequest,
       http_trigger_test params req' w = http_trigger_test params req w.
Proof.
  intros Hp Hs. split; [now apply trigger_with_query_name |].
  intros req'. now rewrite !(trigger_with_query_name _ _ _ s Hp Hs).
Qed.

Lemma X1_query_name_wins_witness :
  http_trigger_test {[ "name" := "Ada" ]} list_request (initial [] no_faults)
  = (Val (hello (JStr "Ada")), emit trigger_log (initial [] no_faults))
  /\ forall req' : HttpRequest,
       http_trigger_test {[ "name" := "Ada" ]} req' (initial [] no_faults)
       = http_trigger_test {[ "name" := "Ada" ]} list_request
                           (initial [] no_faults).
Proof.
  apply (X1_query_name_wins {[ "name" := "Ada" ]} list_request
                            (initial [] no_faults) "Ada").
  - vm_compute. reflexivity.
  - discriminate.
Defined.

Lemma trigger_without_query_name (params : gmap string string)
    (req : HttpRequest) (w : world) :
  no_query_name params ->
  http_trigger_test params req w
  = match req_json req with
    | inl _ => (Val no_name_response, emit trigger_log w)
    | inr (JObj m) =>
        (Val (if truthy (field m "name") then hello (field m "name")
              else no_name_response),
         emit trigger_log w)
    | inr v => (Exn (AttributeError (type_name v) "get"), emit trigger_log w)
    end.
Proof.
  intros Hn. unfold http_trigger_test, bind at 1, logging, get_json.
  assert (Ht : truthy (match params !! "name" with
                       | Some s => JStr s | None => JNull end) = false)
    by (destruct Hn as [-> | ->]; reflexivity).
  rewrite Ht. simpl.
  destruct (req_json req) as [msg | v]; simpl.
  - unfold bind, ret. rewrite Ht. reflexivity.
  - destruct v; try reflexivity.
    unfold bind, lift. simpl. fold (field m "name").
    destruct (truthy (field m "name")); reflexivity.
Qed.

(** X2: without a name in the query string (absent or empty), the name is
    taken from the body when the body is a JSON object: a truthy ["name"]
    of any type is greeted; an absent, null or empty one gives the plain
    response.  Both have status 200. *)
Theorem X2_name_from_body (params : gmap string string) (req : HttpRequest)
    (w : world) (m : gmap string json) :
  no_query_name params ->
  req_json req = inr (JObj m) ->
  http_trigger_test params req w
  = (Val (if truthy (field m "name") then hello (field m "name")
          else no_name_response),
     emit trigger_log w).
Proof.
  intros Hn Hb. rewrite (trigger_without_query_name _ _ _ Hn), Hb. reflexivity.
Qed.

Lemma X2_name_from_body_witness :
  http_trigger_test ∅ named_request (initial [] no_faults)
  = (Val (hello (JStr "Ada")), emit trigger_log (initial [] no_faults)).
Proof.
  refine (eq_trans
            (X2_name_from_body ∅ named_request (initial [] no_faults)
               (list_to_map [("name", JStr "Ada")]) _ _) _).
  - left. reflexivity.
  - reflexivity.
  - vm_compute. reflexivity.
Defined.

(** X3: without a name in the query string, a body that is not valid JSON
    is let through ([except ValueError: pass]): the response is the plain
    one, status 200. *)
Theorem X3_invalid_body_is_no_name (params : gmap string string)
    (req : HttpRequest) (w : world) (msg : string) :
  no_query_name params ->
  req_json req = inl msg ->
  http_trigger_test params req w = (Val no_name_response, emit trigger_log w).
Proof.
  intros Hn Hb. rewrite (trigger_without_query_name _ _ _ Hn), Hb. reflexivity.
Qed.

Lemma X3_invalid_body_is_no_name_witness :
  http_trigger_test {[ "name" := "" ]} (mkHttpRequest (inl "Expecting value"))
                    (initial [] no_faults)
  = (Val no_name_response, emit trigger_log (initial [] no_faults)).
Proof.
  apply (X3_invalid_body_is_no_name {[ "name" := "" ]}
           (mkHttpRequest (inl "Expecting value")) (initial [] no_faults)
           "Expecting value").
  - right. vm_compute. reflexivity.
  - reflexivity.
Defined.

(** X4: the function lets an exception out in one case only: no name in
    the query string and a body that is valid JSON but not an object; the
    exception is the [AttributeError] of [req_body.get].  Every response it
    returns has status 200. *)
Theorem X4_trigger_failure (params : gmap string string) (req : HttpRequest)
    (w : world) :
  (forall e : exn,
     fst (http_trigger_test params req w) = Exn e <->
     no_query_name params
     /\ exists v, req_json req = inr v /\ is_object v = false
                  /\ e = AttributeError (type_name v) "get")
  /\ (forall r : TextResponse,
        fst (http_trigger_test params req w) = Val r -> code r = 200)
  /\ fst (http_trigger_test params req w) <> Pending.
Proof.
  destruct (decide (no_query_name params)) as [Hn | Hn].
  - rewrite (trigger_without_query_name _ _ _ Hn).
    destruct (req_json req) as [msg | v] eqn:Hb.
    + simpl. split; [| split; [| discriminate]].
      * intros e. split; [discriminate |].
        intros (_ & v & Hv & _). discriminate.
      * intros r [= <-]. reflexivity.
    + destruct (is_object v) eqn:Ho.
      * destruct v; try discriminate. simpl.
        split; [| split; [| discriminate]].
        -- intros e. split; [discriminate |].
           intros (_ & v & [= <-] & Hv & _). discriminate.
        -- intros r [= <-]. destruct (truthy (field m "name")); reflexivity.
      * assert (Hr : match v with
                     | JObj m =>
                         (Val (if truthy (field m "name")
                               then hello (field m "name")
                               else no_name_response),
                          emit trigger_log w)
                     | _ => (Exn (AttributeError (type_name v) "get"),
                             emit trigger_log w)
                     end
                     = (Exn (AttributeError (type_name v) "get"),
                        emit trigger_log w))
          by (destruct v; try reflexivity; discriminate).
        rewrite Hr. simpl. split; [| split; discriminate].
        intros e. split.
        -- intros [= <-]. split; [exact Hn |]. exists v. auto.
        -- intros (_ & v' & [= <-] & _ & ->). reflexivity.
  - assert (Hs : exists s, params !! "name" = Some s /\ s <> "").
    { unfold no_query_name in Hn. destruct (params !! "name") as [s |].
      - exists s. split; [reflexivity |]. intros ->. tauto.
      - tauto. }
    destruct Hs as (s & Hp & Hs).
    rewrite (trigger_with_query_name _ _ _ s Hp Hs). simpl.
    split; [| split; [| discriminate]].
    + intros e. split; [discriminate |]. intros [Hq _]. contradiction.
    + intros r [= <-]. reflexivity.
Qed.

Lemma X4_trigger_failure_witness :
  fst (http_trigger_test ∅ list_request (initial [] no_faults))
  = Exn (AttributeError "list" "get").
Proof.
  apply (proj1 (X4_trigger_failure ∅ list_request (initial [] no_faults))
               (AttributeError "list" "get")).
  split; [left; reflexivity |].
  exists (JList [JInt 1]). repeat split.
Defined.

(** ** [ingest_toggl_data]: what can come out of it *)

Lemma request_dates_not_object (req : HttpRequest) (v : json) :
  req_json req = inr v ->
  is_object v = false ->
  request_dates req = Exn (AttributeError (type_name v) "get").
Proof.
  intros Hb Ho. unfold request_dates, get_json. rewrite Hb. simpl.
  destruct v; try reflexivity; discriminate.
Qed.

Lemma ingest_body_not_object (environ : gmap string string) (req : HttpRequest)
    (upstream : list reply) (w : world) (v : json) :
  ~ missing_setting environ ->
  req_json req = inr v ->
  is_object v = false ->
  ingest_toggl_data environ req upstream w
  = (Exn (AttributeError (type_name v) "get"), emit starting_log w).
Proof.
  intros Hc Hb Ho. destruct (configuration_present environ Hc) as [cfg Ec].
  unfold ingest_toggl_data, bind at 1, logging.
  rewrite Ec, (request_dates_not_object req v Hb Ho). reflexivity.
Qed.

(** X5: with the three settings present, a body that is valid JSON but not
    an object (a list, a string, a number, [true], [null]) is not answered
    with a 400: [req_body.get] raises [AttributeError], which the
    [except ValueError] of the second [try] lets through, and the exception
    leaves the function.  Nothing was sent or stored by then. *)
Theorem X5_body_not_an_object (environ : gmap string string)
    (req : HttpRequest) (upstream : list reply) (old : list (list json))
    (faults : nat -> bool) (v : json) :
  ~ missing_setting environ ->
  req_json req = inr v ->
  is_object v = false ->
  fst (ingest_toggl_data environ req upstream (initial old faults))
  = Exn (AttributeError (type_name v) "get")
  /\ List.filter is_io (run_trace environ req upstream old faults) = []
  /\ table (snd (ingest_toggl_data environ req upstream (initial old faults)))
     = old.
Proof.
  intros Hc Hb Ho. unfold run_trace.
  rewrite (ingest_body_not_object _ _ _ _ v Hc Hb Ho). repeat split.
Qed.

Lemma X5_body_not_an_object_witness :
  fst (ingest_toggl_data full_environ list_request two_pages
                         (initial [] no_faults))
  = Exn (AttributeError "list" "get")
  /\ List.filter is_io (run_trace full_environ list_request two_pages [] no_faults)
     = []
  /\ table (snd (ingest_toggl_data full_environ list_request two_pages
                                   (initial [] no_faults)))
     = [].
Proof.
  apply (X5_body_not_an_object full_environ list_request two_pages []
                               no_faults (JList [JInt 1])
                               full_environ_complete);
    reflexivity.
Defined.

Lemma request_dates_cases (req : HttpRequest) :
  (exists dates, request_dates req = Val dates)
  \/ (exists e, request_dates req = Exn e /\ is_ValueError e = true)
  \/ (exists v, req_json req = inr v /\ is_object v = false
                /\ request_dates req = Exn (AttributeError (type_name v) "get")).
Proof.
  destruct (req_json req) as [msg | v] eqn:Hb.
  - right. left. unfold request_dates, get_json. rewrite Hb. simpl. eauto.
  - destruct (is_object v) eqn:Ho.
    + destruct v; try discriminate.
      unfold request_dates, get_json. rewrite Hb. simpl.
      destruct (_ || _); [right; left | left]; eauto.
    + right. right. exists v. repeat split; auto.
      now apply request_dates_not_object.
Qed.

Lemma ingest_past_validation (environ : gmap string string) (req : HttpRequest)
    (upstream : list reply) (old : list (list json)) (faults : nat -> bool)
    (cfg : config) (sd ed : json) :
  configuration environ = Val cfg ->
  request_dates req = Val (sd, ed) ->
  fst (ingest_toggl_data environ req upstream (initial old faults)) = Pending
  \/ (exists e,
        fst (ingest_toggl_data environ req upstream (initial old faults))
        = Val (error_response e))
  \/ (exists n,
        fst (ingest_toggl_data environ req upstream (initial old faults))
        = Val (success_response n)).
Proof.
  intros Ec Ed.
  destruct (faults 0%nat) eqn:H0; [| destruct (faults 1%nat) eqn:H1;
    [| destruct (faults 2%nat) eqn:H2; [| destruct (faults 3%nat) eqn:H3]]].
  1-4: destruct (ingest_setup_failed environ req upstream old faults cfg sd ed
                   Ec Ed ltac:(tauto)) as (e & w1 & done & Hr & _);
       rewrite Hr; right; left; eauto.
  rewrite (ingest_ready _ _ _ _ _ _ _ _ Ec Ed H0 H1 H2 H3).
  destruct (pagination_loop _ _ _ _ _ _ _) as [[total | e |] w1]; simpl; eauto.
Qed.

(** X6: what the function can give back.  A response has status 200, 400
    or 500.  An exception leaves the function in one case only: the
    settings are present and the body is valid JSON but not an object. *)
Theorem X6_outcomes (environ : gmap string string) (req : HttpRequest)
    (upstream : list reply) (old : list (list json)) (faults : nat -> bool) :
  (forall r : HttpResponse,
     fst (ingest_toggl_data environ req upstream (initial old faults)) = Val r ->
     status_code r = 200 \/ status_code r = 400 \/ status_code r = 500)
  /\ (forall e : exn,
        fst (ingest_toggl_data environ req upstream (initial old faults)) = Exn e
        <-> ~ missing_setting environ
            /\ exists v, req_json req = inr v /\ is_object v = false
                         /\ e = AttributeError (type_name v) "get").
Proof.
  destruct (decide (missing_setting environ)) as [Hm | Hc].
  { destruct (configuration_missing environ Hm) as (name & Hn & _).
    rewrite (ingest_missing_config _ _ _ _ _ Hn). simpl. split.
    - intros r [= <-]. auto.
    - intros e. split; [discriminate | tauto]. }
  destruct (configuration_present environ Hc) as [cfg Ec].
  destruct (request_dates_cases req)
    as [[[sd ed] Hd] | [(e' & Hd & Hv) | (v & Hb & Ho & Hd)]].
  - pose proof (request_dates_not_pending req) as _.
    assert (Hobj : forall v, req_json req = inr v -> is_object v = true).
    { intros v Hb. destruct (is_object v) eqn:Ho; [reflexivity |].
      rewrite (request_dates_not_object req v Hb Ho) in Hd. discriminate. }
    destruct (ingest_past_validation environ req upstream old faults cfg sd ed
                Ec Hd) as [-> | [[e ->] | [n ->]]]; split;
      try (intros r; try discriminate; intros [= <-]; simpl; auto);
      intros e0; (split; [discriminate |]);
      intros (_ & v & Hb & Ho & _); rewrite (Hobj v Hb) in Ho; discriminate.
  - assert (Hrun : ingest_toggl_data environ req upstream (initial old faults)
                   = (Val (mkHttpResponse [Lit "Invalid Body: "; FmtExn e'] 400),
                      emit starting_log (initial old faults))).
    { unfold ingest_toggl_data, bind at 1, logging. rewrite Ec, Hd, Hv.
      reflexivity. }
    rewrite Hrun. simpl. split.
    + intros r [= <-]. auto.
    + intros e. split; [discriminate |].
      intros (_ & v & Hb & Ho & _).
      rewrite (request_dates_not_object req v Hb Ho) in Hd.
      injection Hd as <-. discriminate.
  - rewrite (ingest_body_not_object _ _ _ _ v Hc Hb Ho). simpl. split.
    + discriminate.
    + intros e. split.
      * intros [= <-]. eauto.
      * intros (_ & v' & Hb' & _ & ->). congruence.
Qed.

Lemma X6_outcomes_witness :
  status_code (success_response 3) = 200
  \/ status_code (success_response 3) = 400
  \/ status_code (success_response 3) = 500.
Proof.
  apply (proj1 (X6_outcomes full_environ week_request two_pages [] no_faults)
               (success_response 3)).
  vm_compute. reflexivity.
Defined.

(** ** Before the loop *)

(** X7: when one of the four driver calls before the loop fails
    (connecting, getting the cursor, the TRUNCATE, its commit), the run
    returns the 500 "Error" response for that call, no request is sent to
    the API, and the table holds what it held before the run: a TRUNCATE
    that was not committed is dropped with the session.  [conn.close()] is
    called when the connection had been obtained, and not at all when it is
    the connection that failed. *)
Theorem X7_setup_failure (environ : gmap string string) (req : HttpRequest)
    (upstream : list reply) (old : list (list json)) (faults : nat -> bool)
    (dates : json * json) (call : string) :
  ~ missing_setting environ ->
  request_dates req = Val dates ->
  first_setup_fault faults = Some call ->
  fst (ingest_toggl_data environ req upstream (initial old faults))
  = Val (error_response (pyodbc_Error call))
  /\ table (snd (ingest_toggl_data environ req upstream (initial old faults)))
     = old
  /\ session (snd (ingest_toggl_data environ req upstream (initial old faults)))
     = None
  /\ List.filter is_post (run_trace environ req upstream old faults) = []
  /\ List.length (List.filter is_close (run_trace environ req upstream old faults))
     = (if faults 0%nat then 0 else 1)%nat.
Proof.
  intros Hc Hd Hf. destruct dates as [sd ed].
  destruct (configuration_present environ Hc) as [cfg Ec].
  unfold run_trace.
  destruct (ingest_toggl_data environ req upstream (initial old faults))
    as [r w'] eqn:Hrun.
  rewrite (ingest_configured _ _ _ _ _ _ _ Ec Hd) in Hrun.
  unfold first_setup_fault in Hf.
  unfold try_finally, try_except, load_staging in Hrun.
  unfold bind at 1, pyodbc_connect, driver in Hrun. simpl in Hrun.
  destruct (faults 0%nat) eqn:H0.
  { injection Hf as <-. inversion Hrun; subst. simpl. repeat split. }
  unfold bind at 1, conn_cursor, driver in Hrun. simpl in Hrun.
  destruct (faults 1%nat) eqn:H1.
  { injection Hf as <-. inversion Hrun; subst. simpl. repeat split. }
  unfold bind at 1, cursor_execute, driver in Hrun. simpl in Hrun.
  destruct (faults 2%nat) eqn:H2.
  { injection Hf as <-. inversion Hrun; subst. simpl. repeat split. }
  unfold bind at 1, conn_commit, driver in Hrun. simpl in Hrun.
  destruct (faults 3%nat) eqn:H3; [| discriminate].
  injection Hf as <-. inversion Hrun; subst. simpl. repeat split.
Qed.

Lemma X7_setup_failure_witness :
  fst (ingest_toggl_data full_environ week_request two_pages
                         (initial [[JInt 0]] (fault_at 3)))
  = Val (error_response (pyodbc_Error "commit"))
  /\ table (snd (ingest_toggl_data full_environ week_request two_pages
                                   (initial [[JInt 0]] (fault_at 3))))
     = [[JInt 0]]
  /\ session (snd (ingest_toggl_data full_environ week_request two_pages
                                     (initial [[JInt 0]] (fault_at 3))))
     = None
  /\ List.filter is_post
       (run_trace full_environ week_request two_pages [[JInt 0]] (fault_at 3))
     = []
  /\ List.length
       (List.filter is_close
          (run_trace full_environ week_request two_pages [[JInt 0]] (fault_at 3)))
     = 1%nat.
Proof.
  apply (X7_setup_failure full_environ week_request two_pages [[JInt 0]]
                          (fault_at 3) (JStr "2024-01-01", JStr "2024-01-07")
                          "commit" full_environ_complete).
  - vm_compute. reflexivity.
  - reflexivity.
Defined.

(** Either a run never gets to the loop, and then it sends nothing, the
    table is as before and the response is not the success one; or it is
    the loop, started in the [ready] world, followed by [finish]. *)
Lemma run_cases (environ : gmap string string) (req : HttpRequest)
    (upstream : list reply) (old : list (list json)) (faults : nat -> bool) :
  (List.filter is_post (run_trace environ req upstream old faults) = []
   /\ inserted_rows (run_trace environ req upstream old faults) = []
   /\ table (snd (ingest_toggl_data environ req upstream (initial old faults)))
      = old
   /\ forall n,
        fst (ingest_toggl_data environ req upstream (initial old faults))
        <> Val (success_response n))
  \/ (exists cfg sd ed,
        configuration environ = Val cfg
        /\ request_dates req = Val (sd, ed)
        /\ ingest_toggl_data environ req upstream (initial old faults)
           = finish (pagination_loop cfg sd ed upstream 1 0
                                     (ready (SQL_CONN_STRING cfg) faults))).
Proof.
  unfold run_trace.
  destruct (decide (missing_setting environ)) as [Hm | Hc].
  { left. destruct (configuration_missing environ Hm) as (name & Hn & _).
    rewrite (ingest_missing_config _ _ _ _ _ Hn). repeat split. discriminate. }
  destruct (configuration_present environ Hc) as [cfg Ec].
  destruct (request_dates_cases req)
    as [[[sd ed] Hd] | [(e' & Hd & Hv) | (v & Hb & Ho & Hd)]].
  - destruct (first_setup_fault faults) as [call |] eqn:Hf.
    + left. unfold first_setup_fault in Hf.
      destruct (ingest_toggl_data environ req upstream (initial old faults))
        as [r w'] eqn:Hrun.
      rewrite (ingest_configured _ _ _ _ _ _ _ Ec Hd) in Hrun.
      unfold try_finally, try_except, load_staging in Hrun.
      unfold bind at 1, pyodbc_connect, driver in Hrun. simpl in Hrun.
      destruct (faults 0%nat) eqn:H0.
      { inversion Hrun; subst. simpl. repeat split. discriminate. }
      unfold bind at 1, conn_cursor, driver in Hrun. simpl in Hrun.
      destruct (faults 1%nat) eqn:H1.
      { inversion Hrun; subst. simpl. repeat split. discriminate. }
      unfold bind at 1, cursor_execute, driver in Hrun. simpl in Hrun.
      destruct (faults 2%nat) eqn:H2.
      { inversion Hrun; subst. simpl. repeat split. discriminate. }
      unfold bind at 1, conn_commit, driver in Hrun. simpl in Hrun.
      destruct (faults 3%nat) eqn:H3; [| discriminate].
      inversion Hrun; subst. simpl. repeat split. discriminate.
    + right. exists cfg, sd, ed. split; [exact Ec |]. split; [exact Hd |].
      unfold first_setup_fault in Hf.
      destruct (faults 0%nat) eqn:H0; [discriminate |].
      destruct (faults 1%nat) eqn:H1; [discriminate |].
      destruct (faults 2%nat) eqn:H2; [discriminate |].
      destruct (faults 3%nat) eqn:H3; [discriminate |].
      now apply ingest_ready.
  - left. unfold ingest_toggl_data, bind at 1, logging. rewrite Ec, Hd, Hv.
    repeat split. discriminate.
  - left. rewrite (ingest_body_not_object _ _ _ _ v Hc Hb Ho).
    repeat split. discriminate.
Qed.

(** ** The requests of a run *)

Lemma bulk_insert_sends_nothing (cfg : config) (sd ed : json)
    (rows : list (list json)) (total : Z) (w : world) :
  exists tr,
    trace (snd (bulk_insert rows total w)) = (trace w ++ tr)%list
    /\ Forall (sent_by_loop cfg sd ed) tr.
Proof.
  destruct rows as [| row rows]; simpl.
  { exists []. now rewrite app_nil_r. }
  unfold bind, cursor_executemany, conn_commit, ret.
  destruct (driver_cases (ExecuteMany sql_insert (row :: rows)) "executemany"
              (fun w => set_session
                          (option_map (fun t => (t ++ row :: rows)%list) (session w)) w) w)
    as [[_ ->] | [_ ->]].
  { eexists. split; [reflexivity |]. repeat constructor; discriminate. }
  match goal with |- context [driver Commit "commit" ?f ?w0] =>
    destruct (driver_cases Commit "commit" f w0) as [[_ ->] | [_ ->]] end.
  - exists [Db (ExecuteMany sql_insert (row :: rows)) true; Db Commit false].
    split; [| repeat constructor; discriminate].
    simpl. now rewrite <- List.app_assoc.
  - exists [Db (ExecuteMany sql_insert (row :: rows)) true; Db Commit true].
    split; [| repeat constructor; discriminate].
    destruct (session w) as [v |] eqn:Es; simpl; rewrite ?Es; simpl;
      now rewrite <- List.app_assoc.
Qed.

Lemma pagination_loop_requests (cfg : config) (sd ed : json)
    (upstream : list reply) :
  forall (frn total : Z) (w : world),
    exists tr,
      trace (snd (pagination_loop cfg sd ed upstream frn total w))
      = (trace w ++ tr)%list
      /\ Forall (sent_by_loop cfg sd ed) tr
      /\ (upstream <> [] -> exists tr', tr = request_for cfg sd ed frn :: tr').
Proof.
  induction upstream as [| rp up IH]; intros frn total w; simpl.
  { exists []. rewrite app_nil_r. split; [reflexivity |].
    split; [constructor | congruence]. }
  unfold bind at 1. rewrite call_api_eq.
  fold (request_for cfg sd ed frn).
  assert (Hreq : sent_by_loop cfg sd ed (request_for cfg sd ed frn))
    by (intros _; eauto).
  assert (Hend : forall (w2 : world) (tr2 : list event),
            trace w2 = (trace (emit (request_for cfg sd ed frn) w) ++ tr2)%list ->
            Forall (sent_by_loop cfg sd ed) tr2 ->
            exists tr,
              trace w2 = (trace w ++ tr)%list
              /\ Forall (sent_by_loop cfg sd ed) tr
              /\ (rp :: up <> [] -> exists tr', tr = request_for cfg sd ed frn :: tr')).
  { intros w2 tr2 Ht Hf. exists (request_for cfg sd ed frn :: tr2).
    simpl in *. rewrite Ht, <- List.app_assoc. repeat split; eauto. }
  set (w1 := emit (request_for cfg sd ed frn) w) in *.
  assert (H1 : trace w1 = (trace w1 ++ [])%list) by now rewrite app_nil_r.
  destruct (read_reply rp) as [[resp data] | e |]; simpl;
    try (apply (Hend w1 []); [exact H1 | constructor]).
  destruct (truthy data); simpl;
    try (unfold ret; simpl; apply (Hend w1 []); [exact H1 | constructor]).
  unfold bind at 1, lift at 1.
  destruct (flatten_page data) as [rows | e |]; simpl;
    try (apply (Hend w1 []); [exact H1 | constructor]).
  unfold bind at 1.
  destruct (bulk_insert_sends_nothing cfg sd ed rows total w1) as (t2 & H2 & F2).
  destruct (bulk_insert rows total w1) as [[total' | e |] w2]; simpl in H2 |- *;
    try (apply (Hend w2 t2); assumption).
  destruct (headers_get resp "X-Next-Row-Number") as [s |];
    try (unfold ret; simpl; apply (Hend w2 t2); assumption).
  destruct (negb (s =? "")%string);
    try (unfold ret; simpl; apply (Hend w2 t2); assumption).
  unfold bind, lift. destruct (py_int s) as [n | e |]; simpl;
    try (apply (Hend w2 t2); assumption).
  destruct (IH n total' w2) as (t3 & H3 & F3 & _).
  apply (Hend _ (t2 ++ t3)%list).
  - now rewrite H3, H2, List.app_assoc.
  - now apply Forall_app.
Qed.

Lemma finish_trace (loop : res Z * world) :
  exists tail,
    trace (snd (finish loop)) = (trace (snd loop) ++ tail)%list
    /\ List.filter is_post tail = []
    /\ inserted_rows tail = [].
Proof.
  destruct loop as [[total | e |] w]; simpl.
  - exists [Db Close true]. repeat split.
  - exists [error_log e; Db Close true]. rewrite <- List.app_assoc. repeat split.
  - exists []. now rewrite app_nil_r.
Qed.

Lemma payload_fields (sd ed : json) (n : Z) :
  make_payload sd ed n !! "start_date" = Some sd
  /\ make_payload sd ed n !! "end_date" = Some ed
  /\ make_payload sd ed n !! "page_size" = Some (JInt 50)
  /\ make_payload sd ed n !! "first_row_number" = Some (JInt n)
  /\ size (make_payload sd ed n) = 4%nat.
Proof.
  unfold make_payload. repeat split; simplify_map_eq; reflexivity.
Qed.

(** X8: every request a run sends is the one the code builds: to the
    search URL of the configured workspace, with the token and the literal
    ["api_token"] as credentials, and a payload of exactly four fields: the
    two dates as they were in the body of the inbound request, a page size
    of 50, and an integer row number. *)
Theorem X8_requests (environ : gmap string string) (req : HttpRequest)
    (upstream : list reply) (old : list (list json)) (faults : nat -> bool)
    (i : nat) (url : string) (payload : gmap string json)
    (auth : string * string) :
  run_trace environ req upstream old faults !! i = Some (Post url payload auth) ->
  exists (token workspace : string) (m : gmap string json) (n : Z),
    environ !! "TOGGL_API_TOKEN" = Some token
    /\ environ !! "TOGGL_WORKSPACE_ID" = Some workspace
    /\ req_json req = inr (JObj m)
    /\ url = "https://api.track.toggl.com/reports/api/v3/workspace/"
               ++ workspace ++ "/search/time_entries"
    /\ auth = (token, "api_token")
    /\ payload !! "start_date" = Some (field m "start_date")
    /\ payload !! "end_date" = Some (field m "end_date")
    /\ payload !! "page_size" = Some (JInt 50)
    /\ payload !! "first_row_number" = Some (JInt n)
    /\ size payload = 4%nat.
Proof.
  intros Hi.
  assert (Hin : In (Post url payload auth)
                   (List.filter is_post (run_trace environ req upstream old faults))).
  { apply List.filter_In. split; [| reflexivity].
    apply list_elem_of_In. eapply list_elem_of_lookup_2; eauto. }
  destruct (run_cases environ req upstream old faults)
    as [(Hnone & _) | (cfg & sd & ed & Ec & Ed & Hrun)].
  { rewrite Hnone in Hin. destruct Hin. }
  unfold run_trace in Hin. rewrite Hrun in Hin.
  destruct (finish_trace (pagination_loop cfg sd ed upstream 1 0
                            (ready (SQL_CONN_STRING cfg) faults)))
    as (tail & Ht & Hp & _).
  destruct (pagination_loop_requests cfg sd ed upstream 1 0
              (ready (SQL_CONN_STRING cfg) faults)) as (tr & Htr & Hf & _).
  rewrite Ht, Htr, !List.filter_app, Hp, app_nil_r in Hin. simpl in Hin.
  apply List.filter_In in Hin. destruct Hin as [Hin _].
  rewrite Forall_forall in Hf. apply list_elem_of_In in Hin.
  destruct (Hf _ Hin eq_refl) as [n Hn]. unfold request_for in Hn.
  injection Hn as -> -> ->.
  unfold configuration, environ_getitem in Ec.
  destruct (environ !! "TOGGL_API_TOKEN") as [token |]; [| discriminate].
  destruct (environ !! "TOGGL_WORKSPACE_ID") as [workspace |]; [| discriminate].
  destruct (environ !! "SqlConnectionString") as [cs |]; [| discriminate].
  simpl in Ec. injection Ec as <-.
  unfold request_dates, get_json in Ed.
  destruct (req_json req) as [msg | v]; [discriminate |].
  destruct v; try discriminate. simpl in Ed.
  fold (field m "start_date") in Ed. fold (field m "end_date") in Ed.
  destruct (_ || _); [discriminate |]. injection Ed as <- <-.
  exists token, workspace, m, n. simpl.
  destruct (payload_fields (field m "start_date") (field m "end_date") n)
    as (P1 & P2 & P3 & P4 & P5).
  repeat split; assumption.
Qed.

Lemma X8_requests_witness :
  exists (token workspace : string) (m : gmap string json) (n : Z),
    full_environ !! "TOGGL_API_TOKEN" = Some token
    /\ full_environ !! "TOGGL_WORKSPACE_ID" = Some workspace
    /\ req_json week_request = inr (JObj m)
    /\ "https://api.track.toggl.com/reports/api/v3/workspace/42/search/time_entries"
       = "https://api.track.toggl.com/reports/api/v3/workspace/"
           ++ workspace ++ "/search/time_entries"
    /\ ("secret", "api_token") = (token, "api_token")
    /\ make_payload (JStr "2024-01-01") (JStr "2024-01-07") 1 !! "start_date"
       = Some (field m "start_date")
    /\ make_payload (JStr "2024-01-01") (JStr "2024-01-07") 1 !! "end_date"
       = Some (field m "end_date")
    /\ make_payload (JStr "2024-01-01") (JStr "2024-01-07") 1 !! "page_size"
       = Some (JInt 50)
    /\ make_payload (JStr "2024-01-01") (JStr "2024-01-07") 1 !! "first_row_number"
       = Some (JInt n)
    /\ size (make_payload (JStr "2024-01-01") (JStr "2024-01-07") 1) = 4%nat.
Proof.
  apply (X8_requests full_environ week_request two_pages [] no_faults 5%nat).
  vm_compute. reflexivity.
Defined.

(** X9: no request is sent to the API before the staging table was
    cleared and the clear committed; and when a run sends requests at all,
    the first of them asks for row number 1. *)
Theorem X9_first_request (environ : gmap string string) (req : HttpRequest)
    (upstream : list reply) (old : list (list json)) (faults : nat -> bool)
    (i : nat) (url : string) (payload : gmap string json)
    (auth : string * string) :
  run_trace environ req upstream old faults !! i = Some (Post url payload auth) ->
  (4 < i)%nat
  /\ run_trace environ req upstream old faults !! 3%nat
     = Some (Db (Execute sql_truncate) true)
  /\ run_trace environ req upstream old faults !! 4%nat = Some (Db Commit true)
  /\ exists first : gmap string json,
       run_trace environ req upstream old faults !! 5%nat
       = Some (Post url first auth)
       /\ first !! "first_row_number" = Some (JInt 1).
Proof.
  intros Hi.
  assert (Hin : In (Post url payload auth)
                   (List.filter is_post (run_trace environ req upstream old faults))).
  { apply List.filter_In. split; [| reflexivity].
    apply list_elem_of_In. eapply list_elem_of_lookup_2; eauto. }
  destruct (run_cases environ req upstream old faults)
    as [(Hnone & _) | (cfg & sd & ed & Ec & Ed & Hrun)].
  { rewrite Hnone in Hin. destruct Hin. }
  unfold run_trace in *. rewrite Hrun in *.
  destruct upstream as [| rp up]; [simpl in Hin; destruct Hin |].
  destruct (finish_trace (pagination_loop cfg sd ed (rp :: up) 1 0
                            (ready (SQL_CONN_STRING cfg) faults)))
    as (tail & Ht & Hp & _).
  destruct (pagination_loop_requests cfg sd ed (rp :: up) 1 0
              (ready (SQL_CONN_STRING cfg) faults)) as (tr & Htr & Hf & Hfirst).
  destruct (Hfirst ltac:(discriminate)) as [tr' ->].
  rewrite Ht, Htr in *. clear Ht Htr Hrun. simpl in *.
  rewrite !List.filter_app, Hp, app_nil_r in Hin.
  destruct Hin as [Hin | Hin].
  - injection Hin as <- <- <-.
    split; [destruct i as [| [| [| [| [| i]]]]]; simpl in Hi; try discriminate; lia |].
    repeat split. exists (make_payload sd ed 1).
    split; [reflexivity | apply payload_fields].
  - apply List.filter_In in Hin. destruct Hin as [Hin _].
    apply Forall_cons in Hf. destruct Hf as [_ Hf].
    rewrite Forall_forall in Hf. apply list_elem_of_In in Hin.
    destruct (Hf _ Hin eq_refl) as [n Hn]. unfold request_for in Hn.
    injection Hn as -> -> ->.
    split; [destruct i as [| [| [| [| [| i]]]]]; simpl in Hi; try discriminate; lia |].
    repeat split. exists (make_payload sd ed 1).
    split; [reflexivity | apply payload_fields].
Qed.

Lemma X9_first_request_witness :
  (4 < 8)%nat
  /\ run_trace full_environ week_request two_pages [] no_faults !! 3%nat
     = Some (Db (Execute sql_truncate) true)
  /\ run_trace full_environ week_request two_pages [] no_faults !! 4%nat
     = Some (Db Commit true)
  /\ exists first : gmap string json,
       run_trace full_environ week_request two_pages [] no_faults !! 5%nat
       = Some (Post (URL (mkConfig ("secret", "api_token")
                            "https://api.track.toggl.com/reports/api/v3/workspace/42/search/time_entries"
                            "Driver=ODBC;Server=staging"))
                    first ("secret", "api_token"))
       /\ first !! "first_row_number" = Some (JInt 1).
Proof.
  apply (X9_first_request full_environ week_request two_pages [] no_faults
                          8%nat _ (make_payload (JStr "2024-01-01")
                                                (JStr "2024-01-07") 3)).
  vm_compute. reflexivity.
Defined.


Lemma loaded_posts (rows : list (list json)) (w : world) :
  List.filter is_post (trace (loaded rows w)) = List.filter is_post (trace w).
Proof.
  destruct rows; simpl; [reflexivity |].
  rewrite List.filter_app. simpl. now rewrite app_nil_r.
Qed.

Lemma after_page_posts (cfg : config) (sd ed : json) (frn : Z)
    (page : Response) (w : world) :
  List.filter is_post (trace (after_page cfg sd ed frn page w))
  = (List.filter is_post (trace w) ++ [request_for cfg sd ed frn])%list.
Proof.
  unfold after_page. rewrite loaded_posts. simpl.
  now rewrite List.filter_app.
Qed.

Lemma after_pages_posts (cfg : config) (sd ed : json) (pages : list Response) :
  forall (frn : Z) (w : world),
    List.filter is_post (trace (snd (after_pages cfg sd ed pages frn w)))
    = (List.filter is_post (trace w)
       ++ map (request_for cfg sd ed) (cursors frn pages))%list.
Proof.
  induction pages as [| page pages IH]; intros frn w; simpl.
  { now rewrite app_nil_r. }
  rewrite IH, after_page_posts, <- List.app_assoc. reflexivity.
Qed.

Lemma cursors_snoc (cfg : config) (sd ed : json) (pages : list Response)
    (final : Response) :
  forall (frn : Z) (w : world),
    cursors frn (pages ++ [final])
    = (cursors frn pages ++ [fst (after_pages cfg sd ed pages frn w)])%list.
Proof.
  induction pages as [| page pages IH]; intros frn w; simpl; [reflexivity |].
  now rewrite (IH _ (after_page cfg sd ed frn page w)).
Qed.

Lemma cursors_lookup (pages : list Response) (rest : list Response) :
  forall (frn : Z) (k : nat) (page : Response) (n : Z),
    rest <> [] ->
    pages !! k = Some page ->
    next_row_number page = Some n ->
    cursors frn (pages ++ rest) !! S k = Some n.
Proof.
  induction pages as [| p pages IH]; intros frn k page n Hr Hk Hn; [discriminate |].
  destruct k as [| k].
  - injection Hk as ->. simpl. rewrite Hn. simpl.
    destruct pages as [| p' pages]; simpl.
    + destruct rest; [contradiction | reflexivity].
    + reflexivity.
  - simpl in Hk. simpl. now apply (IH _ k page n).
Qed.

(** X10: in a run without a fault over pages that each hand over an
    integer cursor, followed by a last page, the requests sent are, in
    order, those for the row numbers 1, then the value of the
    [X-Next-Row-Number] header of the first page, then that of the second
    page, and so on: each request asks for the row the page before it
    announced, and nothing else is sent. *)
Theorem X10_cursor_chain (environ : gmap string string) (req : HttpRequest)
    (old : list (list json)) (faults : nat -> bool) (cfg : config)
    (sd ed : json) (pages : list Response) (final : Response)
    (rest : list reply) :
  configuration environ = Val cfg ->
  request_dates req = Val (sd, ed) ->
  (forall k : nat, faults k = false) ->
  Forall (fun page => more_pages page = true) pages ->
  last_page final = true ->
  List.filter is_post
    (run_trace environ req (map Answer pages ++ Answer final :: rest) old faults)
  = map (request_for cfg sd ed) (cursors 1 (pages ++ [final]))
  /\ cursors 1 (pages ++ [final]) !! 0%nat = Some 1
  /\ forall (k : nat) (page : Response) (n : Z),
       pages !! k = Some page ->
       next_row_number page = Some n ->
       cursors 1 (pages ++ [final]) !! S k = Some n.
Proof.
  intros Ec Ed Hf Hm Hl. split; [| split].
  - unfold run_trace.
    rewrite (ingest_ready _ _ _ _ _ _ _ _ Ec Ed) by apply Hf.
    rewrite loop_through_pages; auto; [| intros i _; apply Hf].
    pose proof (after_pages_advanced cfg sd ed pages 1
                  (ready (SQL_CONN_STRING cfg) faults) eq_refl)
      as (_ & Hs & Hfa & _).
    rewrite last_turn; auto.
    2:{ intros _. rewrite Hfa. auto. }
    simpl. rewrite List.filter_app, after_page_posts, after_pages_posts. simpl.
    rewrite app_nil_r.
    rewrite (cursors_snoc cfg sd ed pages final 1
               (ready (SQL_CONN_STRING cfg) faults)), map_app.
    reflexivity.
  - destruct pages; reflexivity.
  - intros k page n Hk Hn.
    now apply (cursors_lookup pages [final] 1 k page n).
Qed.

Lemma X10_cursor_chain_witness :
  List.filter is_post
    (run_trace full_environ week_request
       (map Answer [page_of [entry_of 1 []; entry_of 2 []] (Some "3")]
        ++ Answer (page_of [entry_of 3 []] None) :: [])
       [] no_faults)
  = map (request_for
           (mkConfig ("secret", "api_token")
              "https://api.track.toggl.com/reports/api/v3/workspace/42/search/time_entries"
              "Driver=ODBC;Server=staging")
           (JStr "2024-01-01") (JStr "2024-01-07"))
        [1; 3].
Proof.
  refine (proj1 (X10_cursor_chain full_environ week_request [] no_faults
                   _ _ _ [page_of [entry_of 1 []; entry_of 2 []] (Some "3")]
                   (page_of [entry_of 3 []] None) [] _ _ _ _ _)).
  - vm_compute. reflexivity.
  - vm_compute. reflexivity.
  - intros k. reflexivity.
  - repeat constructor.
  - vm_compute. reflexivity.
Defined.

(** ** What a successful run leaves in the table *)

Lemma inserted_rows_app (t1 t2 : list event) :
  inserted_rows (t1 ++ t2) = (inserted_rows t1 ++ inserted_rows t2)%list.
Proof. unfold inserted_rows. now rewrite map_app, concat_app. Qed.

Lemma bulk_insert_success (rows : list (list json)) (total t1 : Z)
    (w w1 : world) :
  session w = Some (table w) ->
  bulk_insert rows total w = (Val t1, w1) ->
  w1 = loaded rows w /\ t1 = total + Z.of_nat (List.length rows).
Proof.
  intros Hs H. destruct rows as [| row rows].
  { simpl in H. unfold ret in H. injection H as <- <-. simpl. split; [reflexivity | lia]. }
  assert (Hf : faults w (calls w) = false /\ faults w (S (calls w)) = false).
  { unfold bulk_insert, bind at 1, cursor_executemany, driver in H.
    destruct (faults w (calls w)); [discriminate |].
    unfold bind at 1, conn_commit, driver in H. simpl in H.
    destruct (faults w (S (calls w))); [discriminate |]. auto. }
  rewrite bulk_insert_ok in H by auto. injection H as <- <-. auto.
Qed.

Lemma loaded_trace (rows : list (list json)) (w : world) :
  session w = Some (table w) ->
  exists tr,
    trace (loaded rows w) = (trace w ++ tr)%list
    /\ inserted_rows tr = rows
    /\ table (loaded rows w) = (table w ++ rows)%list
    /\ session (loaded rows w) = Some (table (loaded rows w)).
Proof.
  intros Hs. destruct rows as [| row rows]; simpl.
  - exists []. rewrite !app_nil_r. auto.
  - eexists. split; [reflexivity |]. unfold inserted_rows. simpl.
    rewrite app_nil_r. auto.
Qed.

Lemma loop_success (cfg : config) (sd ed : json) (upstream : list reply) :
  forall (frn total total' : Z) (w w' : world),
    session w = Some (table w) ->
    pagination_loop cfg sd ed upstream frn total w = (Val total', w') ->
    exists tr,
      trace w' = (trace w ++ tr)%list
      /\ table w' = (table w ++ inserted_rows tr)%list
      /\ session w' = Some (table w')
      /\ total' = total + Z.of_nat (List.length (inserted_rows tr)).
Proof.
  induction upstream as [| rp up IH]; intros frn total total' w w' Hs H;
    simpl in H; [discriminate |].
  unfold bind at 1 in H. rewrite call_api_eq in H.
  set (w1 := emit (request_for cfg sd ed frn) w).
  fold (request_for cfg sd ed frn) in H. fold w1 in H.
  assert (Hs1 : session w1 = Some (table w1)) by exact Hs.
  assert (Hstop : forall t, (Val t, w1) = (Val total', w') -> t = total ->
            exists tr,
              trace w' = (trace w ++ tr)%list
              /\ table w' = (table w ++ inserted_rows tr)%list
              /\ session w' = Some (table w')
              /\ total' = total + Z.of_nat (List.length (inserted_rows tr))).
  { intros t [= <- <-] ->. exists [request_for cfg sd ed frn]. simpl.
    rewrite app_nil_r. repeat split; auto. lia. }
  destruct (read_reply rp) as [[resp data] | e |]; simpl in H; try discriminate.
  destruct (truthy data); simpl in H; [| now apply (Hstop total)].
  unfold bind at 1, lift at 1 in H.
  destruct (flatten_page data) as [rows | e |]; simpl in H; try discriminate.
  unfold bind at 1 in H.
  destruct (bulk_insert rows total w1) as [[t1 | e |] w2] eqn:Hb; try discriminate.
  destruct (bulk_insert_success rows total t1 w1 w2 Hs1 Hb) as [-> ->].
  destruct (loaded_trace rows w1 Hs1) as (t2 & Ht2 & Hi2 & Htab2 & Hs2).
  assert (Hend : forall t, (Val t, loaded rows w1) = (Val total', w') ->
            t = total + Z.of_nat (List.length rows) ->
            exists tr,
              trace w' = (trace w ++ tr)%list
              /\ table w' = (table w ++ inserted_rows tr)%list
              /\ session w' = Some (table w')
              /\ total' = total + Z.of_nat (List.length (inserted_rows tr))).
  { intros t [= <- <-] ->. exists (request_for cfg sd ed frn :: t2).
    rewrite Ht2, Htab2. simpl. rewrite <- List.app_assoc.
    change (inserted_rows (request_for cfg sd ed frn :: t2))
      with (inserted_rows t2). rewrite Hi2. repeat split; auto.
    now rewrite Hs2, Htab2. }
  destruct (headers_get resp "X-Next-Row-Number") as [s |];
    [| now apply (Hend _ H)].
  destruct (negb (s =? "")%string); [| now apply (Hend _ H)].
  unfold bind, lift in H. destruct (py_int s) as [n | e |]; try discriminate.
  destruct (IH n _ total' (loaded rows w1) w' Hs2 H) as (t3 & Ht3 & Htab3 & Hs3 & Htot).
  exists (request_for cfg sd ed frn :: t2 ++ t3)%list.
  rewrite Ht3, Ht2, Htab3, Htab2. simpl.
  change (inserted_rows (request_for cfg sd ed frn :: t2 ++ t3))
    with (inserted_rows (t2 ++ t3)).
  rewrite inserted_rows_app, Hi2, <- !List.app_assoc. simpl.
  repeat split; auto.
  - rewrite Hs3, Htab3, Htab2. simpl. now rewrite <- List.app_assoc.
  - rewrite List.length_app. lia.
Qed.

(** X11: whatever the API answers and whichever driver calls fail, a run
    that returns the success response leaves in the staging table exactly
    the rows of the batch inserts of this run, in the order they were
    issued, and nothing of what the table held before; the total it reports
    is the number of rows in the table. *)
Theorem X11_success_table (environ : gmap string string) (req : HttpRequest)
    (upstream : list reply) (old : list (list json)) (faults : nat -> bool)
    (n : Z) :
  fst (ingest_toggl_data environ req upstream (initial old faults))
  = Val (success_response n) ->
  table (snd (ingest_toggl_data environ req upstream (initial old faults)))
  = inserted_rows (run_trace environ req upstream old faults)
  /\ n = Z.of_nat
           (List.length
              (table (snd (ingest_toggl_data environ req upstream
                                                   (initial old faults))))).
Proof.
  intros Hok.
  destruct (run_cases environ req upstream old faults)
    as [(_ & _ & _ & Hno) | (cfg & sd & ed & Ec & Ed & Hrun)].
  { exfalso. exact (Hno n Hok). }
  unfold run_trace. rewrite Hrun in *.
  destruct (pagination_loop cfg sd ed upstream 1 0
              (ready (SQL_CONN_STRING cfg) faults)) as [[total | e |] w1] eqn:Hl;
    simpl in Hok; try discriminate.
  injection Hok as ->.
  destruct (loop_success cfg sd ed upstream 1 0 n
              (ready (SQL_CONN_STRING cfg) faults) w1 eq_refl Hl)
    as (tr & Ht & Htab & _ & Htot).
  simpl in *. rewrite Ht, Htab.
  change (setup_events (SQL_CONN_STRING cfg) ++ tr)%list
    with (setup_events (SQL_CONN_STRING cfg) ++ tr)%list.
  rewrite !inserted_rows_app. simpl. rewrite app_nil_r. split; [reflexivity |].
  lia.
Qed.

Lemma X11_success_table_witness :
  table (snd (ingest_toggl_data full_environ week_request two_pages
                                (initial [[JInt 0]] no_faults)))
  = inserted_rows (run_trace full_environ week_request two_pages [[JInt 0]]
                             no_faults)
  /\ 3 = Z.of_nat
           (List.length
              (table (snd (ingest_toggl_data full_environ week_request two_pages
                                                   (initial [[JInt 0]] no_faults))))).
Proof.
  apply (X11_success_table full_environ week_request two_pages [[JInt 0]]
                           no_faults 3).
  vm_compute. reflexivity.
Defined.

(** ** More on the flattener *)

Lemma for_entry_in_acc (data : list json) :
  forall acc : list (list json),
    for_entry_in data acc
    = res_bind (for_entry_in data []) (fun rows => Val (acc ++ rows)%list).
Proof.
  induction data as [| entry data IH]; intros acc; simpl.
  { now rewrite app_nil_r. }
  destruct (flatten_entry entry) as [[row |] | e |]; try reflexivity.
  - rewrite (IH (acc ++ [row])%list), (IH [row]).
    destruct (for_entry_in data []); simpl; try reflexivity.
    now rewrite <- List.app_assoc.
  - apply IH.
Qed.

Lemma for_entry_in_app (d1 d2 : list json) :
  forall acc : list (list json),
    for_entry_in (d1 ++ d2) acc
    = res_bind (for_entry_in d1 acc) (fun rows => for_entry_in d2 rows).
Proof.
  induction d1 as [| entry d1 IH]; intros acc; simpl; [reflexivity |].
  destruct (flatten_entry entry) as [[row |] | e |]; try reflexivity; apply IH.
Qed.

(** X12: flattening goes through the entries in order and keeps that
    order: the rows of a page made of two runs of entries are the rows of
    the first run followed by those of the second, and the first entry that
    raises decides the exception of the whole page. *)
Theorem X12_flatten_page_app (entries1 entries2 : list json) :
  flatten_page (JList (entries1 ++ entries2))
  = (rows1 <- flatten_page (JList entries1) ;;
     rows2 <- flatten_page (JList entries2) ;;
     Val (rows1 ++ rows2)%list)%res.
Proof.
  unfold flatten_page. simpl. rewrite for_entry_in_app.
  destruct (for_entry_in entries1 []) as [rows1 | e |]; simpl; try reflexivity.
  apply for_entry_in_acc.
Qed.

Lemma flatten_entry_width (entry : json) (row : list json) :
  flatten_entry entry = Val (Some row) ->
  List.length row = List.length staging_columns.
Proof.
  unfold flatten_entry. intros H.
  repeat match type of H with
         | res_bind ?r _ = _ => destruct r; simpl in H; try discriminate
         | (if ?b then _ else _) = _ => destruct b; simpl in H; try discriminate
         end.
  injection H as <-. reflexivity.
Qed.

Lemma for_entry_in_rows (data : list json) :
  forall acc rows : list (list json),
    for_entry_in data acc = Val rows ->
    Forall (fun row => List.length row = List.length staging_columns) acc ->
    Forall (fun row => List.length row = List.length staging_columns) rows
    /\ (List.length rows <= List.length acc + List.length data)%nat.
Proof.
  induction data as [| entry data IH]; intros acc rows H Hacc; simpl in H.
  { injection H as <-. split; [exact Hacc | lia]. }
  destruct (flatten_entry entry) as [[row |] | e |] eqn:He; try discriminate.
  - destruct (IH _ _ H) as [Hw Hl].
    + apply Forall_app. split; [exact Hacc |].
      constructor; [now apply (flatten_entry_width entry) | constructor].
    + split; [exact Hw |]. rewrite List.length_app in Hl. simpl in *. lia.
  - destruct (IH _ _ H Hacc) as [Hw Hl]. split; [exact Hw |]. simpl. lia.
Qed.

(** X13: when a page flattens, every row has as many values as the INSERT
    statement has columns and placeholders (ten), and there are at most as
    many rows as the page has entries. *)
Theorem X13_rows_fit_the_insert (entries : list json)
    (rows : list (list json)) :
  flatten_page (JList entries) = Val rows ->
  Forall (fun row => List.length row = 10%nat) rows
  /\ List.length staging_columns = 10%nat
  /\ (List.length rows <= List.length entries)%nat.
Proof.
  unfold flatten_page. simpl. intros H.
  destruct (for_entry_in_rows entries [] rows H ltac:(constructor)) as [Hw Hl].
  repeat split; auto.
Qed.

Lemma X13_rows_fit_the_insert_witness :
  Forall (fun row => List.length row = 10%nat)
         [ [JInt 7; JInt 9; JInt 3; JNull; JNull; JStr "review";
            JStr "2024-01-02T09:00:00"; JNull; JInt 600; JNull] ]
  /\ List.length staging_columns = 10%nat
  /\ (1 <= 2)%nat.
Proof.
  apply (X13_rows_fit_the_insert [JObj entry_without_details; entry_of 7 []]).
  vm_compute. reflexivity.
Defined.

Lemma flatten_entry_cases (entry : json) :
  match entry with
  | JObj m =>
      if truthy (field m "time_entries")
      then match field m "time_entries" with
           | JList (JObj d :: _) =>
               exists row, flatten_entry entry = Val (Some row)
           | JList (v :: _) =>
               flatten_entry entry = Exn (AttributeError (type_name v) "get")
           | JStr _ => flatten_entry entry = Exn (AttributeError "str" "get")
           | JObj _ => flatten_entry entry = Exn (KeyError (JInt 0))
           | v => flatten_entry entry
                  = Exn (TypeError (type_name v) "is not subscriptable")
           end
      else flatten_entry entry = Val None
  | v => flatten_entry entry = Exn (AttributeError (type_name v) "get")
  end.
Proof.
  destruct entry; try reflexivity.
  unfold flatten_entry. rewrite py_get_obj. simpl.
  destruct (truthy (field m "time_entries")) eqn:Ht; simpl; [| reflexivity].
  unfold field in *.
  destruct (m !! "time_entries") as [te |] eqn:Hte; simpl in *; [| discriminate].
  destruct te as [| b | z | f | s | l | m']; simpl in *; try discriminate;
    try reflexivity.
  - destruct s; [discriminate | reflexivity].
  - destruct l as [| v l]; [discriminate |].
    destruct v; simpl; try reflexivity. eexists. reflexivity.
Qed.

(** X14: which entries give a row.  An entry is flattened into a row
    exactly when it is a JSON object whose [time_entries] is a list that
    starts with a JSON object; it is skipped exactly when it is a JSON
    object whose [time_entries] is absent or falsy (null, empty list, empty
    string, 0, false, empty object); every other entry raises. *)
Theorem X14_flatten_entry_domain (entry : json) :
  ((exists row, flatten_entry entry = Val (Some row)) <->
   exists m d rest,
     entry = JObj m /\ m !! "time_entries" = Some (JList (JObj d :: rest)))
  /\ (flatten_entry entry = Val None <->
      exists m, entry = JObj m /\ truthy (field m "time_entries") = false)
  /\ flatten_entry entry <> Pending.
Proof.
  pose proof (flatten_entry_cases entry) as H.
  destruct entry as [| b | z | f | s | l | m];
    try (rewrite H; repeat split; try discriminate;
         try (intros [? ?]; discriminate);
         try (intros (? & ? & ? & ? & _); discriminate);
         intros (? & ? & _); discriminate).
  destruct (truthy (field m "time_entries")) eqn:Ht.
  - unfold field in *.
    destruct (m !! "time_entries") as [te |] eqn:Hte; simpl in *; [| discriminate].
    assert (Hno : forall x, flatten_entry (JObj m) = Exn x ->
              ((exists row, flatten_entry (JObj m) = Val (Some row)) <->
               exists m0 d rest,
                 JObj m = JObj m0
                 /\ m0 !! "time_entries" = Some (JList (JObj d :: rest)))
              -> ((exists row, flatten_entry (JObj m) = Val (Some row)) <->
                  exists m0 d rest,
                    JObj m = JObj m0
                    /\ m0 !! "time_entries" = Some (JList (JObj d :: rest)))
                 /\ (flatten_entry (JObj m) = Val None <->
                     exists m0, JObj m = JObj m0
                                /\ truthy (default JNull (m0 !! "time_entries")) = false)
                 /\ flatten_entry (JObj m) <> Pending).
    { intros x Hx Hiff. split; [exact Hiff |]. rewrite Hx. split; [| discriminate].
      split; [discriminate |]. intros (m0 & [= <-] & Hf). rewrite Hte in Hf.
      simpl in Hf. congruence. }
    assert (Hexn : forall x, flatten_entry (JObj m) = Exn x ->
              (forall d rest, te <> JList (JObj d :: rest)) ->
              ((exists row, flatten_entry (JObj m) = Val (Some row)) <->
               exists m0 d rest,
                 JObj m = JObj m0
                 /\ m0 !! "time_entries" = Some (JList (JObj d :: rest)))).
    { intros x Hx Hne. rewrite Hx. split.
      - intros [? ?]. discriminate.
      - intros (m0 & d & rest & [= <-] & Hm). rewrite Hte in Hm.
        injection Hm as ->. exfalso. exact (Hne d rest eq_refl). }
    destruct te as [| b | z | f | s | l | m']; simpl in H;
      try (apply (Hno _ H), (Hexn _ H); intros; discriminate).
    destruct l as [| v l]; [discriminate |].
    destruct v as [| b | z | f | s | l' | d]; simpl in H;
      try (apply (Hno _ H), (Hexn _ H); intros; discriminate).
    destruct H as [row Hrow]. rewrite Hrow. repeat split; try discriminate; eauto.
    intros (m0 & [= <-] & Hf). rewrite Hte in Hf. simpl in Hf. discriminate.
  - rewrite H. repeat split; try discriminate; eauto.
    + intros [? ?]. discriminate.
    + intros (m0 & d & rest & [= <-] & Hm). unfold field in Ht.
      rewrite Hm in Ht. discriminate.
Qed.

Lemma X14_flatten_entry_domain_witness :
  exists row, flatten_entry (entry_of 7 []) = Val (Some row).
Proof.
  apply (proj2 (proj1 (X14_flatten_entry_domain (entry_of 7 [])))).
  exists (entry_fields 7 []), (detail_fields 7), []. split; [reflexivity |].
  vm_compute. reflexivity.
Defined.

(** ** Pages that cannot be flattened, and cursors that are empty *)

Lemma flatten_failing_turn (cfg : config) (sd ed : json) (bad : reply)
    (rest : list reply) (frn total : Z) (w : world) (e : exn) :
  flatten_failure bad = Some e ->
  pagination_loop cfg sd ed (bad :: rest) frn total w
  = (Exn e, emit (request_for cfg sd ed frn) w).
Proof.
  unfold flatten_failure. intros H. simpl. unfold bind at 1.
  rewrite call_api_eq. fold (request_for cfg sd ed frn).
  destruct (read_reply bad) as [[resp data] | |]; try discriminate.
  destruct (truthy data); [| discriminate]. simpl.
  unfold bind at 1, lift at 1.
  destruct (flatten_page data); try discriminate. now injection H as ->.
Qed.

(** X15: one entry that cannot be flattened makes the run lose the whole
    page.  After pages loaded without a fault, a page in which some entry
    raises (it is not an object, or the first element of its
    [time_entries] is not one) gives the 500 "Error" response with that
    exception; the table holds the rows of the earlier pages and none of
    this page, not even those of its well-formed entries; no further
    request is sent. *)
Theorem X15_malformed_entry_aborts (environ : gmap string string)
    (req : HttpRequest) (old : list (list json)) (faults : nat -> bool)
    (dates : json * json) (pages : list Response) (bad : reply)
    (rest : list reply) (e : exn) :
  ~ missing_setting environ ->
  request_dates req = Val dates ->
  Forall (fun page => more_pages page = true) pages ->
  no_fault_between faults 0 (4 + 2 * batches pages) ->
  flatten_failure bad = Some e ->
  fst (ingest_toggl_data environ req (map Answer pages ++ bad :: rest)
                         (initial old faults))
  = Val (error_response e)
  /\ table (snd (ingest_toggl_data environ req (map Answer pages ++ bad :: rest)
                                   (initial old faults)))
     = concat (map rows_of pages)
  /\ List.length
       (List.filter is_post
          (run_trace environ req (map Answer pages ++ bad :: rest) old faults))
     = S (List.length pages).
Proof.
  intros Hc Hd Hm Hf Hbad. destruct dates as [sd ed].
  destruct (configuration_present environ Hc) as [cfg Ec].
  destruct (run_through_pages environ req old faults cfg sd ed pages
              (bad :: rest) Ec Hd Hm Hf)
    as (frn & w & Hrun & (Ht & Hs & Hfa & Hca & Hp & He)).
  unfold run_trace. rewrite Hrun.
  rewrite (flatten_failing_turn cfg sd ed bad rest frn _ w e Hbad). simpl.
  repeat split.
  - exact Ht.
  - rewrite !List.filter_app, !List.length_app, Hp. simpl. lia.
Qed.

Lemma X15_malformed_entry_aborts_witness :
  fst (ingest_toggl_data full_environ week_request
         (map Answer [page_of [entry_of 1 []; entry_of 2 []] (Some "3")]
          ++ Answer (page_of [entry_of 3 []; JInt 5] None) :: [])
         (initial [] no_faults))
  = Val (error_response (AttributeError "int" "get"))
  /\ table (snd (ingest_toggl_data full_environ week_request
                   (map Answer [page_of [entry_of 1 []; entry_of 2 []] (Some "3")]
                    ++ Answer (page_of [entry_of 3 []; JInt 5] None) :: [])
                   (initial [] no_faults)))
     = concat (map rows_of [page_of [entry_of 1 []; entry_of 2 []] (Some "3")]).
Proof.
  pose proof (X15_malformed_entry_aborts full_environ week_request [] no_faults
                (JStr "2024-01-01", JStr "2024-01-07")
                [page_of [entry_of 1 []; entry_of 2 []] (Some "3")]
                (Answer (page_of [entry_of 3 []; JInt 5] None)) []
                (AttributeError "int" "get")
                full_environ_complete
                ltac:(vm_compute; reflexivity)
                ltac:(repeat constructor)
                (fun _ _ => eq_refl)
                ltac:(vm_compute; reflexivity))
    as (H1 & H2 & _).
  split; [exact H1 | exact H2].
Defined.

(** X16: a decoded body that is truthy but not a list cannot be gone
    through as a list of entries.  For a non-empty object the loop meets its
    keys, for a non-empty string its characters, and [entry.get] raises
    [AttributeError] on the first of them; a number or [true] is not
    iterable at all. *)
Theorem X16_body_not_a_list (data : json) :
  truthy data = true ->
  (forall entries, data <> JList entries) ->
  flatten_page data
  = Exn (match data with
         | JObj _ | JStr _ => AttributeError "str" "get"
         | _ => TypeError (type_name data) "is not iterable"
         end).
Proof.
  intros Ht Hl. unfold flatten_page.
  destruct data as [| b | z | f | s | l | m]; simpl in *; try reflexivity.
  - destruct s as [| c s]; [discriminate | reflexivity].
  - exfalso. exact (Hl l eq_refl).
  - destruct (map_to_list m) as [| [k v] kvs]; [discriminate | reflexivity].
Qed.

Lemma X16_body_not_a_list_witness :
  flatten_page (obj [("error", JStr "rate limited")])
  = Exn (AttributeError "str" "get").
Proof.
  apply (X16_body_not_a_list (obj [("error", JStr "rate limited")])).
  - vm_compute. reflexivity.
  - intros entries. discriminate.
Defined.

Lemma empty_cursor_turn (cfg : config) (sd ed : json) (page : Response)
    (rest : list reply) (frn total : Z) (w : world) :
  empty_cursor page = true ->
  session w = Some (table w) ->
  (rows_of page <> [] ->
   faults w (calls w) = false /\ faults w (S (calls w)) = false) ->
  pagination_loop cfg sd ed (Answer page :: rest) frn total w
  = (Val (total + Z.of_nat (List.length (rows_of page))),
     after_page cfg sd ed frn page w).
Proof.
  unfold empty_cursor.
  rewrite !andb_true_iff, negb_true_iff, !bool_decide_eq_true.
  intros [[Hr Hz] Hh] Hs Hf.
  rewrite turn_reaches_pagination by assumption.
  unfold handle_pagination. rewrite Hh. reflexivity.
Qed.

(** X17: an [X-Next-Row-Number] header that is there but empty ends the
    pagination like an absent one: after pages loaded without a fault, a
    page with entries and an empty header value is the last one fetched,
    whatever else the API could answer, and the run returns the success
    response with the total of all the rows, those of that page
    included. *)
Theorem X17_empty_cursor_stops (environ : gmap string string)
    (req : HttpRequest) (old : list (list json)) (faults : nat -> bool)
    (dates : json * json) (pages : list Response) (final : Response)
    (rest : list reply) :
  ~ missing_setting environ ->
  request_dates req = Val dates ->
  (forall k : nat, faults k = false) ->
  Forall (fun page => more_pages page = true) pages ->
  empty_cursor final = true ->
  fst (ingest_toggl_data environ req (map Answer pages ++ Answer final :: rest)
                         (initial old faults))
  = Val (success_response (total_rows (pages ++ [final])))
  /\ List.length
       (List.filter is_post
          (run_trace environ req (map Answer pages ++ Answer final :: rest)
                     old faults))
     = S (List.length pages)
  /\ table (snd (ingest_toggl_data environ req
                   (map Answer pages ++ Answer final :: rest)
                   (initial old faults)))
     = concat (map rows_of (pages ++ [final])).
Proof.
  intros Hc Hd Hf Hm Hl. destruct dates as [sd ed].
  destruct (configuration_present environ Hc) as [cfg Ec].
  destruct (run_through_pages environ req old faults cfg sd ed pages
              (Answer final :: rest) Ec Hd Hm ltac:(intros i _; apply Hf))
    as (frn & w & Hrun & Ha).
  unfold run_trace. rewrite Hrun.
  assert (Hs : session w = Some (table w)) by apply Ha.
  rewrite empty_cursor_turn; auto.
  2:{ intros _. destruct Ha as (_ & _ & -> & _). auto. }
  pose proof (advanced_trans _ _ _ _ _ _ _ _ _ Ha
                (after_page_advanced cfg sd ed frn final w Hs))
    as (Ht & _ & _ & _ & Hp & _).
  simpl. repeat split.
  - unfold total_rows. rewrite map_app, concat_app, List.length_app. simpl.
    rewrite app_nil_r. do 2 f_equal. lia.
  - rewrite List.filter_app, List.length_app, Hp. simpl. lia.
  - rewrite Ht, map_app, concat_app. simpl. now rewrite app_nil_r.
Qed.

Lemma X17_empty_cursor_stops_witness :
  fst (ingest_toggl_data full_environ week_request
         (map Answer [] ++ Answer (page_of [entry_of 1 []] (Some ""))
          :: [Answer (page_of [entry_of 2 []] None)])
         (initial [] no_faults))
  = Val (success_response (total_rows ([] ++ [page_of [entry_of 1 []] (Some "")])))
  /\ List.length
       (List.filter is_post
          (run_trace full_environ week_request
             (map Answer [] ++ Answer (page_of [entry_of 1 []] (Some ""))
              :: [Answer (page_of [entry_of 2 []] None)])
             [] no_faults))
     = 1%nat.
Proof.
  pose proof (X17_empty_cursor_stops full_environ week_request [] no_faults
                (JStr "2024-01-01", JStr "2024-01-07") []
                (page_of [entry_of 1 []] (Some ""))
                [Answer (page_of [entry_of 2 []] None)]
                full_environ_complete
                ltac:(vm_compute; reflexivity)
                (fun _ => eq_refl)
                ltac:(constructor)
                ltac:(vm_compute; reflexivity))
    as (H1 & H2 & _).
  split; [exact H1 | exact H2].
Defined.

(** ** The settings *)

Lemma configuration_first_missing (environ : gmap string string) :
  match first_missing environ with
  | Some name => configuration environ = Exn (KeyError (JStr name))
  | None => exists cfg, configuration environ = Val cfg
  end.
Proof.
  unfold first_missing, configuration, environ_getitem.
  destruct (environ !! "TOGGL_API_TOKEN"); simpl; [| reflexivity].
  destruct (environ !! "TOGGL_WORKSPACE_ID"); simpl; [| reflexivity].
  destruct (environ !! "SqlConnectionString"); simpl; [| reflexivity].
  eauto.
Qed.

(** X18: the settings are read in the order API token, workspace, connection
    string, and the "Missing config" response names the first one that is
    absent, whatever else is missing too.  A setting that is present with
    an empty value is not missing. *)
Theorem X18_first_missing_setting (environ : gmap string string)
    (req : HttpRequest) (upstream : list reply) (old : list (list json))
    (faults : nat -> bool) (name : string) :
  first_missing environ = Some name ->
  fst (ingest_toggl_data environ req upstream (initial old faults))
  = Val (mkHttpResponse [Lit "Missing config: "; FmtExn (KeyError (JStr name))]
                        500)
  /\ (name = "TOGGL_WORKSPACE_ID" ->
      is_Some (environ !! "TOGGL_API_TOKEN"))
  /\ (name = "SqlConnectionString" ->
      is_Some (environ !! "TOGGL_API_TOKEN")
      /\ is_Some (environ !! "TOGGL_WORKSPACE_ID"))
  /\ forall value : string,
       first_missing (<[name := value]> environ) <> Some name.
Proof.
  intros Hf. pose proof (configuration_first_missing environ) as Hc.
  rewrite Hf in Hc. rewrite (ingest_missing_config _ _ _ _ _ Hc). simpl.
  split; [reflexivity |].
  unfold first_missing in *.
  destruct (environ !! "TOGGL_API_TOKEN") eqn:E1.
  2:{ injection Hf as <-. repeat split; try discriminate.
      intros value. rewrite lookup_insert_eq.
      repeat (destruct (_ !! _); try discriminate). }
  destruct (environ !! "TOGGL_WORKSPACE_ID") eqn:E2.
  2:{ injection Hf as <-. repeat split; try discriminate; eauto.
      intros value. rewrite lookup_insert_ne by discriminate. rewrite E1.
      rewrite lookup_insert_eq.
      repeat (destruct (_ !! _); try discriminate). }
  destruct (environ !! "SqlConnectionString") eqn:E3; [discriminate |].
  injection Hf as <-. repeat split; try discriminate; eauto.
  intros value. rewrite !lookup_insert_ne by discriminate. rewrite E1, E2.
  rewrite lookup_insert_eq. discriminate.
Qed.

Lemma X18_first_missing_setting_witness :
  fst (ingest_toggl_data {[ "TOGGL_API_TOKEN" := "" ]} week_request two_pages
                         (initial [] no_faults))
  = Val (mkHttpResponse
           [Lit "Missing config: "; FmtExn (KeyError (JStr "TOGGL_WORKSPACE_ID"))]
           500).
Proof.
  apply (X18_first_missing_setting {[ "TOGGL_API_TOKEN" := "" ]} week_request
                                   two_pages [] no_faults "TOGGL_WORKSPACE_ID").
  vm_compute. reflexivity.
Defined.
